(** * Uber Eats order analytics: a shallow embedding of [analyzer.py]

    The development follows [src/serverless/analzyer/analyzer.py]:
    year inference ([add_years_to_orders]), the comparison selector
    ([get_best_comparison]), the report pipeline ([analyze_orders] with
    [upload_chart_to_s3]), the email sink ([send_email]), identity
    extraction ([extract_user_email_from_key]) and the entry point
    ([lambda_handler]).

    Conventions.
    - Python [str] values are [string]s; letter case and whitespace are
      those of ASCII, any other byte is an uncased, non-blank character.
    - Python [int] is [Z]; Python [float] arithmetic is carried out on exact
      rationals [Q] (IEEE rounding, NaN and infinities are outside the model).
    - A call that may raise returns a [Result]; code that talks to the outside
      world (S3, SendGrid, the logger) runs in the monad [M], which threads the
      history of external calls and asks an oracle for each response. *)

From Stdlib Require Import ZArith QArith Qabs Qround List Bool Ascii String Lia.
From Stdlib Require Import DecimalString DecimalPos DecimalZ Permutation Sorted.
Import ListNotations.

Local Open Scope string_scope.
Local Open Scope Z_scope.

(** ** Python exceptions and fallible results *)

Inductive exn : Type :=
| IndexError
| KeyError (key : string)
| ValueError (msg : string)
| TypeError
| AttributeError
| ClientError (msg : string)
| JSONDecodeError (msg : string)
| OtherError (msg : string).

Inductive Result (A : Type) : Type :=
| Ok (a : A)
| Raise (e : exn).
Arguments Ok {A} a.
Arguments Raise {A} e.

Definition rbind {A B} (r : Result A) (k : A -> Result B) : Result B :=
  match r with
  | Ok a => k a
  | Raise e => Raise e
  end.

Declare Scope result_scope.
Delimit Scope result_scope with result.
Notation "x <- r ;; k" := (rbind r (fun x => k))
  (at level 100, r at next level, right associativity) : result_scope.

(** ** Python string primitives used by the analyzer *)

Module Py.

Definition code (c : ascii) : N := N_of_ascii c.

(** [str.isspace] on ASCII: TAB, LF, VT, FF, CR, FS, GS, RS, US, SPACE. *)
Definition is_space (c : ascii) : bool :=
  let n := code c in
  ((9 <=? n) && (n <=? 13) || (28 <=? n) && (n <=? 32))%N.

Definition is_upper (c : ascii) : bool :=
  let n := code c in ((65 <=? n) && (n <=? 90))%N.

Definition is_lower (c : ascii) : bool :=
  let n := code c in ((97 <=? n) && (n <=? 122))%N.

Definition is_cased (c : ascii) : bool := is_upper c || is_lower c.

Definition to_upper (c : ascii) : ascii :=
  if is_lower c then ascii_of_N (code c - 32) else c.

Definition to_lower (c : ascii) : ascii :=
  if is_upper c then ascii_of_N (code c + 32) else c.

Definition snoc (s : string) (c : ascii) : string := s ++ String c "".

Definition is_empty (s : string) : bool :=
  match s with EmptyString => true | _ => false end.

(** [s.split()]: maximal runs of non-whitespace characters. [cur] is the
    token being read. *)
Fixpoint split_ws_from (cur : string) (s : string) : list string :=
  match s with
  | EmptyString => if is_empty cur then [] else [cur]
  | String c rest =>
      if is_space c
      then (if is_empty cur then split_ws_from "" rest
            else cur :: split_ws_from "" rest)
      else split_ws_from (snoc cur c) rest
  end.

Definition split_ws (s : string) : list string := split_ws_from "" s.

Fixpoint no_space (s : string) : bool :=
  match s with
  | EmptyString => true
  | String c rest => negb (is_space c) && no_space rest
  end.

(** What [split()] can return as an element: not empty, no whitespace. *)
Definition is_token (s : string) : bool := negb (is_empty s) && no_space s.

(** [s.split(sep)] for a one-character separator: always at least one
    segment, empty segments are kept. *)
Fixpoint split_on_from (sep : ascii) (cur : string) (s : string) : list string :=
  match s with
  | EmptyString => [cur]
  | String c rest =>
      if Ascii.eqb c sep then cur :: split_on_from sep "" rest
      else split_on_from sep (snoc cur c) rest
  end.

Definition split_on (sep : ascii) (s : string) : list string :=
  split_on_from sep "" s.

(** [s.title()]: a letter that follows a cased letter is lowered, any other
    letter is raised. *)
Fixpoint title_from (prev_cased : bool) (s : string) : string :=
  match s with
  | EmptyString => EmptyString
  | String c rest =>
      String (if prev_cased then to_lower c else to_upper c)
             (title_from (is_cased c) rest)
  end.

Definition title (s : string) : string := title_from false s.

Fixpoint lower (s : string) : string :=
  match s with
  | EmptyString => EmptyString
  | String c rest => String (to_lower c) (lower rest)
  end.

(** [c in s] for a single character. *)
Fixpoint contains (c : ascii) (s : string) : bool :=
  match s with
  | EmptyString => false
  | String d rest => Ascii.eqb d c || contains c rest
  end.

(** [s.replace(c, "")] for a single character. *)
Fixpoint remove_char (c : ascii) (s : string) : string :=
  match s with
  | EmptyString => EmptyString
  | String d rest =>
      if Ascii.eqb d c then remove_char c rest
      else String d (remove_char c rest)
  end.

Definition endswith (s suffix : string) : bool :=
  let n := String.length s in
  let k := String.length suffix in
  (k <=? n)%nat && String.eqb (substring (n - k)%nat k s) suffix.

(** [str(n)] for an integer. *)
Definition str_of_Z (n : Z) : string := NilZero.string_of_int (Z.to_int n).

Definition str_of_nat (n : nat) : string := str_of_Z (Z.of_nat n).

(** [sep.join(parts)]. *)
Fixpoint join (sep : string) (parts : list string) : string :=
  match parts with
  | [] => ""
  | [p] => p
  | p :: rest => p ++ sep ++ join sep rest
  end.

End Py.

(** ** Orders *)

Record Order : Type := mkOrder {
  restaurantName : string;
  date : string;
  time : string;
  total : string;
  canceled : bool
}.

Definition set_date (o : Order) (d : string) : Order :=
  {| restaurantName := restaurantName o;
     date := d;
     time := time o;
     total := total o;
     canceled := canceled o |}.

(** ** Year inference *)

Module YearInference.

Definition month_names : list string :=
  ["Jan"; "Feb"; "Mar"; "Apr"; "May"; "Jun";
   "Jul"; "Aug"; "Sep"; "Oct"; "Nov"; "Dec"].

(** [enumerate(names, start)]. *)
Fixpoint enumerate_from (start : Z) (names : list string) : list (string * Z) :=
  match names with
  | [] => []
  | m :: rest => (m, start) :: enumerate_from (start + 1) rest
  end.

Definition month_table : list (string * Z) := enumerate_from 1 month_names.

Fixpoint lookup (k : string) (table : list (string * Z)) : option Z :=
  match table with
  | [] => None
  | (k', v) :: rest => if String.eqb k' k then Some v else lookup k rest
  end.

(** [month_to_num[m]]; a missing key raises [KeyError]. *)
Definition month_to_num (m : string) : Result Z :=
  match lookup m month_table with
  | Some n => Ok n
  | None => Raise (KeyError m)
  end.

Definition first_half : list string :=
  ["Jan"; "Feb"; "Mar"; "Apr"; "May"; "Jun"].

Definition in_first_half (m : string) : bool :=
  existsb (String.eqb m) first_half.

(** [f"{month_abbr} {day} {year}"]. *)
Definition format_date (month_abbr day : string) (year : Z) : string :=
  month_abbr ++ " " ++ day ++ " " ++ Py.str_of_Z year.

(** The body of [for idx, order in enumerate(orders)], with the loop
    variables [year] and [prev_month_num] passed along. *)
Fixpoint year_loop (idx : nat) (year prev_month_num : Z) (orders : list Order)
  : Result (list Order) :=
  match orders with
  | [] => Ok []
  | order :: rest =>
      match Py.split_ws (date order) with
      | [month_abbr; day] =>
          let month_abbr := Py.title month_abbr in
          (month_num <- month_to_num month_abbr ;;
           let year := if negb (Nat.eqb idx 0) && (prev_month_num <? month_num)
                       then year - 1 else year in
           rest' <- year_loop (S idx) year month_num rest ;;
           Ok (set_date order (format_date month_abbr day year) :: rest'))%result
      | _ => Raise (ValueError "unpack")
      end
  end.

Definition add_years_to_orders (orders : list Order) (current_year : Z)
  : Result (list Order) :=
  match orders with
  | [] => Ok orders
  | first :: _ =>
      match Py.split_ws (date first) with
      | [] => Raise IndexError
      | tok :: _ =>
          let first_month := Py.title tok in
          let year := if in_first_half first_month
                      then current_year else current_year - 1 in
          (prev_month_num <- month_to_num first_month ;;
           year_loop 0 year prev_month_num orders)%result
      end
  end.

End YearInference.

(** ** Number formatting ([format] with [.Nf] and [,.Nf]) *)

Module Fmt.

Definition Qlt_bool (x y : Q) : bool := negb (Qle_bool y x).

(** Round to the nearest integer, ties to even. *)
Definition round_half_even (q : Q) : Z :=
  let f := Qfloor q in
  match Qcompare (q - inject_Z f) (1 # 2) with
  | Lt => f
  | Gt => f + 1
  | Eq => if Z.even f then f else f + 1
  end.

Fixpoint zeros (n : nat) : string :=
  match n with
  | O => ""
  | S k => String "0" (zeros k)
  end.

(** The [digits] fractional digits of [frac], zero-padded on the left. *)
Definition pad_frac (digits : nat) (frac : Z) : string :=
  let s := Py.str_of_Z frac in
  zeros (digits - String.length s) ++ s.

(** Insert a comma before every group of three digits, from the right. *)
Fixpoint group3 (fuel : nat) (n : Z) : string :=
  match fuel with
  | O => Py.str_of_Z n
  | S k =>
      if n <? 1000 then Py.str_of_Z n
      else group3 k (n / 1000) ++ "," ++ pad_frac 3 (n mod 1000)
  end.

Definition fixed_with (int_part : Z -> string) (digits : nat) (q : Q) : string :=
  let scale := 10 ^ Z.of_nat digits in
  let n := round_half_even (Qabs q * inject_Z scale) in
  (if Qlt_bool q 0 then "-" else "")
    ++ int_part (n / scale)
    ++ (match digits with
        | O => ""
        | _ => "." ++ pad_frac digits (n mod scale)
        end).

(** [f"{q:.Nf}"]. *)
Definition fixed (digits : nat) (q : Q) : string :=
  fixed_with Py.str_of_Z digits q.

(** [f"{q:,.Nf}"]. *)
Definition fixed_grouped (digits : nat) (q : Q) : string :=
  fixed_with (fun n => group3 (Z.to_nat n) n) digits q.

End Fmt.

(** ** Comparison selector *)

Module Comparison.

Inductive Category : Type := grocery | experience | tech.

Record Item : Type := mkItem {
  item_key : string;
  price : Z;
  name : string
}.

(** The catalog, in the iteration order of the dictionary literal. *)
Definition comparisons : list (Category * list Item) :=
  [ (grocery,
     [ mkItem "lattes" 6 "Starbucks lattes ☕";
       mkItem "groceries_week" 200 "weeks of groceries 🛒";
       mkItem "groceries_month" 800 "months of groceries 🛒" ]);
    (experience,
     [ mkItem "movies" 15 "movie tickets 🎬";
       mkItem "dinners" 80 "nice dinners out 🍽️";
       mkItem "weekends" 600 "weekend getaways ✈️";
       mkItem "vacations" 2000 "week-long vacations 🏖️" ]);
    (tech,
     [ mkItem "airpods" 180 "AirPods 🎧";
       mkItem "watches" 400 "Apple Watches ⌚";
       mkItem "iphones" 1000 "iPhones 📱";
       mkItem "macbooks" 1800 "MacBooks 💻" ]) ].

Definition category_bonus (c : Category) : Q :=
  match c with
  | experience => 0
  | tech => 1 # 2
  | grocery => 1
  end.

Record ComparisonResult : Type := mkResult {
  quantity : string;
  description : string
}.

(** The loop variables; [best_score = None] stands for [float('inf')]. *)
Record Best : Type := mkBest {
  best_comparison : option ComparisonResult;
  best_score : option Q
}.

Definition initial : Best := mkBest None None.

Definition quantity_of (amount : Q) (details : Item) : Q :=
  amount / inject_Z (price details).

Definition in_range (quantity : Q) : bool :=
  Qle_bool 1 quantity && Qle_bool quantity 10.

Definition score_of (category : Category) (quantity : Q) : Q :=
  Qabs (quantity - 3) + category_bonus category.

Definition below (score : Q) (best : option Q) : bool :=
  match best with
  | None => true
  | Some b => Fmt.Qlt_bool score b
  end.

Definition format_quantity (quantity : Q) : string :=
  if Fmt.Qlt_bool quantity 10 then Fmt.fixed 1 quantity
  else Fmt.fixed 0 quantity.

(** One iteration of the inner loop. *)
Definition consider (amount : Q) (category : Category) (st : Best)
           (details : Item) : Best :=
  let quantity := quantity_of amount details in
  if in_range quantity then
    let score := score_of category quantity in
    if below score (best_score st)
    then mkBest (Some (mkResult (format_quantity quantity) (name details)))
                (Some score)
    else st
  else st.

Definition scan (amount : Q) : Best :=
  fold_left
    (fun st (entry : Category * list Item) =>
       fold_left (consider amount (fst entry)) (snd entry) st)
    comparisons initial.

Definition get_best_comparison (amount : Q) : ComparisonResult :=
  match best_comparison (scan amount) with
  | Some best => best
  | None =>
      if Fmt.Qlt_bool amount 100
      then mkResult (Fmt.fixed 0 (amount / 4)) "Starbucks lattes ☕"
      else mkResult (Fmt.fixed 1 (amount / 80)) "nice dinners out 🍽️"
  end.

End Comparison.

(** ** Library functions and the outside world *)

(** A parsed JSON document ([json.loads]). *)
#[warnings="-register-all"]
Inductive json : Type :=
| JNull
| JBool (b : bool)
| JNum (q : Q)
| JStr (s : string)
| JArr (items : list json)
| JObj (fields : list (string * json)).

(** The library calls of the analyzer whose code is not part of the
    repository. A pandas [Timestamp] is its integer instant, a monthly
    [Period] its ordinal. *)
Class Library : Type := {
  (** [pd.to_numeric] on one cell. *)
  to_numeric : string -> Result Q;
  (** [pd.to_datetime] on one cell. *)
  to_datetime : string -> Result Z;
  (** [.dt.hour], [.dt.day_name()], [.dt.to_period("M")]. *)
  dt_hour : Z -> Z;
  dt_day_name : Z -> string;
  dt_month : Z -> Z;
  (** [sort_values(key, ascending=True)]: some ascending rearrangement; the
      order among equal keys is left open. *)
  sort_values : forall {A : Type}, (A -> Z) -> list A -> list A;
  sort_values_perm : forall A (key : A -> Z) (l : list A),
      Permutation (sort_values key l) l;
  sort_values_sorted : forall A (key : A -> Z) (l : list A),
      Sorted (fun a b => key a <= key b) (sort_values key l);
  (** [value_counts().idxmax()] of a non-empty column [first :: rest]. *)
  value_counts_idxmax : forall {A : Type}, (A -> A -> bool) -> A -> list A -> A;
  (** [DataFrame.to_html] for the monthly table and for the order table. *)
  monthly_to_html : list (Z * Q) -> string;
  orders_to_html : list (string * string * string * string) -> string
}.

(** The decoding steps of the entry point. *)
Class Codec : Type := {
  (** [json.loads], [urllib.parse.unquote_plus]. *)
  json_loads : string -> Result json;
  unquote_plus : string -> string;
  (** The order dictionaries of a parsed document as the analysis reads them;
      a value of another shape makes the analysis raise. *)
  orders_of_json : json -> Result (list Order)
}.

(** What is handed to matplotlib for each chart; drawing a figure is taken
    to succeed, rendering it ([savefig]) may raise. *)
Inductive Figure : Type :=
| SpendingFigure (monthly_spend : list (Z * Q))
| CumulativeFigure (points : list (Z * Q)).

(** ** The report *)

Record Card : Type := mkCard {
  label : string;
  value : string;
  note : option string
}.

(** A chart slot of the template: the image, or the fallback markup. *)
Inductive Slot : Type :=
| Image (url alt : string)
| MonthlySummary (table_html : string)
| HistoryPointer.

(** The double-quote character of the markup. *)
Definition dq : string := String (ascii_of_nat 34) "".

Definition attr (name value : string) : string :=
  " " ++ name ++ "=" ++ dq ++ value ++ dq.

Definition render_slot (s : Slot) : string :=
  match s with
  | Image url alt =>
      "<img" ++ attr "src" url ++ attr "alt" alt
        ++ attr "style" "display: block; margin: 0 auto; max-width: 100%; height: auto;"
        ++ "/>"
  | MonthlySummary table_html =>
      "<div" ++ attr "style" "text-align: center; color: #7f8c8d; padding: 20px;"
        ++ "><p>📊 Monthly Spending Summary</p><div"
        ++ attr "style" "background: #f8f9fa; padding: 15px; border-radius: 8px; margin: 10px 0;"
        ++ ">" ++ table_html ++ "</div></div>"
  | HistoryPointer =>
      "<p" ++ attr "style" "text-align: center; color: #7f8c8d; padding: 20px;"
        ++ ">📈 See your order history table below for spending progression</p>"
  end.

(** The interpolated parts of the summary template, in template order; the
    fixed markup and style sheet around them are not reproduced. *)
Record Report : Type := mkReport {
  cards : list Card;
  spending_slot : Slot;
  cumulative_slot : Slot;
  order_table : string
}.

(** The value returned by [analyze_orders]: a literal page, or the summary
    template filled in. *)
Inductive Document : Type :=
| Literal (html : string)
| Summary (r : Report).

Definition no_orders_html : string :=
  "<html><body><h1>No orders found to analyze</h1></body></html>".

Record Mail : Type := mkMail {
  from_email : string;
  to_emails : string;
  mail_subject : string;
  html_content : Document
}.

Inductive LogLevel : Type := INFO | WARNING | ERROR.

(** One constructor per logging statement, with the interpolated values. *)
Inductive LogMsg : Type :=
| UploadedChart (chart_name chart_url : string)
| UploadError (chart_name : string) (e : exn)
| EmailSent (to_email : string) (status_code : Z)
| EmailError (to_email : string) (e : exn)
| ReceivedEvent (event : json)
| ProcessingFile (source_key : string) (source_bucket : json)
| SkippingNonJson (source_key : string)
| ProcessingUser (user_email : string)
| UnexpectedStructure (source_key : string)
| FoundOrders (n : nat)
| NoOrdersFound (source_key : string)
| AnalysisEmailSent (user_email : string)
| AnalysisEmailFailed (user_email : string)
| S3AccessError (source_key : string) (e : exn)
| JsonParseError (source_key : string) (e : exn)
| ProcessingError (source_key : string) (e : exn)
| HandlerError (e : exn).

(** The calls that leave the process. *)
Inductive Call : Type :=
| SaveFig (fig : Figure)
| PutObject (bucket key body content_type : string)
| GetObject (bucket : json) (key : string)
| SendGridSend (api_key : string) (message : Mail)
| Log (level : LogLevel) (msg : LogMsg).

Definition History : Type := list Call.

(** The environment of one invocation: process configuration, and the
    response to each external call given the calls made so far. *)
Record World : Type := mkWorld {
  environ : string -> option string;
  now_strftime : History -> string;
  savefig : History -> Figure -> Result string;
  put_object : History -> string -> string -> string -> string -> Result unit;
  get_object : History -> json -> string -> Result string;
  sendgrid_send : History -> string -> Mail -> Result Z
}.

(** Computations that may raise and that extend the history of calls. *)
Definition M (A : Type) : Type := History -> Result A * History.

Definition ret {A} (a : A) : M A := fun h => (Ok a, h).

Definition raise {A} (e : exn) : M A := fun h => (Raise e, h).

Definition bind {A B} (m : M A) (k : A -> M B) : M B :=
  fun h =>
    match m h with
    | (Ok a, h') => k a h'
    | (Raise e, h') => (Raise e, h')
    end.

(** [try: m except Exception as e: handler e]. *)
Definition try_except {A} (m : M A) (handler : exn -> M A) : M A :=
  fun h =>
    match m h with
    | (Ok a, h') => (Ok a, h')
    | (Raise e, h') => handler e h'
    end.

Definition lift {A} (r : Result A) : M A := fun h => (r, h).

(** Perform [c]; the world answers from the history before the call. *)
Definition call {A} (c : Call) (respond : History -> Result A) : M A :=
  fun h => (respond h, (h ++ [c])%list).

Definition log (level : LogLevel) (msg : LogMsg) : M unit :=
  call (Log level msg) (fun _ => Ok tt).

Declare Scope m_scope.
Delimit Scope m_scope with M.
Notation "x <- m ;; k" := (bind m (fun x => k))
  (at level 100, m at next level, right associativity) : m_scope.
Notation "m ;;; k" := (bind m (fun _ => k))
  (at level 100, right associativity) : m_scope.

(** Python truthiness of an optional string: [None] and [""] are false. *)
Definition truthy (o : option string) : bool :=
  match o with
  | None => false
  | Some s => negb (Py.is_empty s)
  end.

(** ** Statistics engine *)

Fixpoint map_result {A B} (f : A -> Result B) (l : list A) : Result (list B) :=
  match l with
  | [] => Ok []
  | a :: rest =>
      (b <- f a ;;
       bs <- map_result f rest ;;
       Ok (b :: bs))%result
  end.

(** A row of the data frame: the order with its dated [date], and the
    assigned columns [total_value] and [ts]. *)
Record Row : Type := mkRow {
  order : Order;
  total_value : Q;
  ts : Z
}.

Fixpoint cumsum_from (acc : Q) (l : list Q) : list Q :=
  match l with
  | [] => []
  | x :: rest => (acc + x)%Q :: cumsum_from (acc + x)%Q rest
  end.

(** [Series.cumsum()]. *)
Definition cumsum (l : list Q) : list Q :=
  match l with
  | [] => []
  | x :: rest => x :: cumsum_from x rest
  end.

(** [Series.sum()]. *)
Definition sum (l : list Q) : Q := fold_left Qplus l 0%Q.

(** [Series.idxmax()] on [best :: l]: the first row with the largest value. *)
Fixpoint idxmax_from (best : Row) (l : list Row) : Row :=
  match l with
  | [] => best
  | r :: rest =>
      if Fmt.Qlt_bool (total_value best) (total_value r)
      then idxmax_from r rest
      else idxmax_from best rest
  end.

Definition count_str (x : string) (l : list string) : nat :=
  List.length (filter (String.eqb x) l).

(** [value_counts().max()]. *)
Definition value_counts_max (l : list string) : nat :=
  fold_left Nat.max (map (fun x => count_str x l) l) 0%nat.

(** [_hour_label]: [datetime(1900, 1, 1, hour).strftime("%-I%p")]. *)
Definition _hour_label (hour : Z) : Result string :=
  if (0 <=? hour) && (hour <=? 23)
  then Ok (Py.str_of_Z (if hour mod 12 =? 0 then 12 else hour mod 12)
             ++ (if hour <? 12 then "AM" else "PM"))
  else Raise (ValueError "hour must be in 0..23").

Section Statistics.
Context {L : Library}.

(** The two [assign]ed columns, each computed over the whole frame. *)
Definition normalize (dated : list Order) : Result (list Row) :=
  (values <- map_result
               (fun o => to_numeric (Py.remove_char "$" (total o))) dated ;;
   stamps <- map_result
               (fun o => to_datetime (date o ++ " " ++ time o)) dated ;;
   Ok (map (fun '(o, (v, t)) => mkRow o v t)
           (combine dated (combine values stamps))))%result.

(** [groupby(ts.dt.to_period("M")).total_value.sum()]: one entry per month
    present, months ascending. *)
Definition monthly (df : list Row) : list (Z * Q) :=
  map (fun m => (m, sum (map total_value
                           (filter (fun r => dt_month (ts r) =? m) df))))
      (sort_values (fun m => m) (nodup Z.eq_dec (map (fun r => dt_month (ts r)) df))).

Record Stats : Type := mkStats {
  df : list Row;
  cum_value : list Q;
  monthly_spend : list (Z * Q);
  total_orders : nat;
  total_spent : Q;
  largest_order_row : Row;
  top_hour : string;
  top_day : string;
  canceled_orders : nat;
  top_restaurant : string;
  top_restaurant_count : nat;
  avg_order_value : Q
}.

(** The frame: dated orders, assigned columns, sorted by [ts]. *)
Definition frame (orders : list Order) : Result (list Row) :=
  (dated <- YearInference.add_years_to_orders orders 2025 ;;
   rows <- normalize dated ;;
   Ok (sort_values ts rows))%result.

Definition statistics (orders : list Order) : Result Stats :=
  (df <- frame orders ;;
   match df with
   | [] => Raise (ValueError "attempt to get argmax of an empty sequence")
   | first :: rest =>
       let values := map total_value df in
       let names := map (fun r => restaurantName (order r)) df in
       top_hour <- _hour_label
                     (value_counts_idxmax Z.eqb (dt_hour (ts first))
                        (map (fun r => dt_hour (ts r)) rest)) ;;
       Ok {| df := df;
             cum_value := cumsum values;
             monthly_spend := monthly df;
             total_orders := List.length df;
             total_spent := sum values;
             largest_order_row := idxmax_from first rest;
             top_hour := top_hour;
             top_day := value_counts_idxmax String.eqb
                          (dt_day_name (ts first))
                          (map (fun r => dt_day_name (ts r)) rest);
             canceled_orders := List.length (filter (fun r => canceled (order r)) df);
             top_restaurant := value_counts_idxmax String.eqb
                                 (restaurantName (order first))
                                 (map (fun r => restaurantName (order r)) rest);
             top_restaurant_count := value_counts_max names;
             avg_order_value := (sum values / inject_Z (Z.of_nat (List.length df)))%Q |}
   end)%result.

(** The nine KPI cards of the template, row by row. *)
Definition kpi_cards (st : Stats) : list Card :=
  let largest := largest_order_row st in
  let comparison := Comparison.get_best_comparison (total_spent st) in
  [ mkCard "Total Spent" ("$" ++ Fmt.fixed_grouped 2 (total_spent st)) None;
    mkCard "Average Order Cost" ("$" ++ Fmt.fixed 2 (avg_order_value st)) None;
    mkCard "Total Orders" (Py.str_of_nat (total_orders st)) None;
    mkCard "Cancelled Orders" (Py.str_of_nat (canceled_orders st)) None;
    mkCard "Peak Ordering Hour" (top_hour st) None;
    mkCard "Top Day to Order" (top_day st) None;
    mkCard "Top Restaurant" (top_restaurant st)
           (Some ("Ordered " ++ Py.str_of_nat (top_restaurant_count st) ++ " times"));
    mkCard "Largest Order" ("$" ++ Fmt.fixed 2 (total_value largest))
           (Some (restaurantName (order largest) ++ " (" ++ date (order largest) ++ ")"));
    mkCard "Could Have Bought" (Comparison.quantity comparison)
           (Some (Comparison.description comparison)) ].

(** [df[['restaurantName','date','time','total']].to_html(index=False)]. *)
Definition order_table_of (st : Stats) : string :=
  orders_to_html
    (map (fun r => (restaurantName (order r), date (order r),
                    time (order r), total (order r)))
         (df st)).

End Statistics.

(** The string held by a truthy optional string. *)
Definition value_of (o : option string) : string :=
  match o with
  | Some s => s
  | None => ""
  end.

(** ** Chart publishing and report composition *)

Section Pipeline.
Context {L : Library}.
Variable w : World.

Definition default_bucket : string := "ubereats-orders-bucket".

Definition spending_alt : string :=
  "Spending Over Time Chart - Shows your Uber Eats spending patterns over time".

Definition cumulative_alt : string :=
  "Cumulative Spending Chart - Shows your total Uber Eats spending growth over time".

(** The [try] block of [upload_chart_to_s3]. *)
Definition upload_chart_body (fig : Figure) (chart_name timestamp : string)
  : M (option string) :=
  (body <- call (SaveFig fig) (fun h => savefig w h fig) ;;
   let chart_key := "charts/" ++ timestamp ++ "_" ++ chart_name ++ "_chart.png" in
   let bucket_name :=
     match environ w "CHARTS_BUCKET_NAME" with
     | Some b => b
     | None => default_bucket
     end in
   _ <- call (PutObject bucket_name chart_key body "image/png")
             (fun h => put_object w h bucket_name chart_key body "image/png") ;;
   let chart_url := "https://" ++ bucket_name ++ ".s3.amazonaws.com/" ++ chart_key in
   log INFO (UploadedChart chart_name chart_url) ;;;
   ret (Some chart_url))%M.

Definition upload_chart_to_s3 (fig : Figure) (chart_name timestamp : string)
  : M (option string) :=
  try_except (upload_chart_body fig chart_name timestamp)
             (fun e => log ERROR (UploadError chart_name e) ;;; ret None)%M.

(** [datetime.now().strftime("%Y%m%d_%H%M%S")]. *)
Definition now : M string := fun h => (Ok (now_strftime w h), h).

Definition spending_slot_of (st : Stats) (spending_chart_url : option string) : Slot :=
  if truthy spending_chart_url
  then Image (value_of spending_chart_url) spending_alt
  else MonthlySummary (monthly_to_html (monthly_spend st)).

Definition cumulative_slot_of (cumulative_chart_url : option string) : Slot :=
  if truthy cumulative_chart_url
  then Image (value_of cumulative_chart_url) cumulative_alt
  else HistoryPointer.

Definition analyze_orders (orders : list Order) : M Document :=
  match orders with
  | [] => ret (Literal no_orders_html)
  | _ :: _ =>
      (st <- lift (statistics orders) ;;
       timestamp <- now ;;
       spending_chart_url <-
         upload_chart_to_s3 (SpendingFigure (monthly_spend st)) "spending" timestamp ;;
       cumulative_chart_url <-
         upload_chart_to_s3
           (CumulativeFigure (combine (map ts (df st)) (cum_value st)))
           "cumulative" timestamp ;;
       ret (Summary
              {| cards := kpi_cards st;
                 spending_slot := spending_slot_of st spending_chart_url;
                 cumulative_slot := cumulative_slot_of cumulative_chart_url;
                 order_table := order_table_of st |}))%M
  end.

(** ** Email sink *)

(** The [try] block of [send_email]. *)
Definition send_email_body (to_email subject : string) (content : Document)
  : M bool :=
  let sendgrid_api_key := environ w "DEREK_SENDGRID_API_KEY" in
  let sender_email := environ w "DEREK_SENDER_EMAIL" in
  if negb (truthy sendgrid_api_key)
  then raise (ValueError "DEREK_SENDGRID_API_KEY environment variable is not set")
  else if negb (truthy sender_email)
  then raise (ValueError "DEREK_SENDER_EMAIL environment variable is not set")
  else
    (let message := mkMail (value_of sender_email) to_email subject content in
     status_code <- call (SendGridSend (value_of sendgrid_api_key) message)
                         (fun h => sendgrid_send w h (value_of sendgrid_api_key) message) ;;
     log INFO (EmailSent to_email status_code) ;;;
     ret ((200 <=? status_code) && (status_code <? 300)))%M.

Definition send_email (to_email subject : string) (content : Document) : M bool :=
  try_except (send_email_body to_email subject content)
             (fun e => log ERROR (EmailError to_email e) ;;; ret false)%M.

End Pipeline.

(** ** Identity extraction *)

Definition looks_like_email (part : string) : bool :=
  Py.contains "@" part && Py.contains "." part.

Definition extract_user_email_from_key (s3_key : string) : string :=
  let parts := Py.split_on "/" s3_key in
  match find looks_like_email parts with
  | Some part => part
  | None =>
      if (1 <? List.length parts)%nat
      then nth (List.length parts - 2) parts ""
      else "unknown"
  end.

(** ** Entry point *)

Module PyJson.

Fixpoint assoc (k : string) (fields : list (string * json)) : option json :=
  match fields with
  | [] => None
  | (k', v) :: rest => if String.eqb k' k then Some v else assoc k rest
  end.

(** [d.get(k, default)]. *)
Definition get (d : json) (k : string) (default : json) : Result json :=
  match d with
  | JObj fields =>
      match assoc k fields with
      | Some v => Ok v
      | None => Ok default
      end
  | _ => Raise AttributeError
  end.

(** [d[k]] for a string key. *)
Definition index (d : json) (k : string) : Result json :=
  match d with
  | JObj fields =>
      match assoc k fields with
      | Some v => Ok v
      | None => Raise (KeyError k)
      end
  | _ => Raise TypeError
  end.

Fixpoint chars (s : string) : list json :=
  match s with
  | EmptyString => []
  | String c rest => JStr (String c "") :: chars rest
  end.

(** The items visited by [for x in v]. *)
Definition iter (v : json) : Result (list json) :=
  match v with
  | JArr items => Ok items
  | JObj fields => Ok (map (fun kv => JStr (fst kv)) fields)
  | JStr s => Ok (chars s)
  | _ => Raise TypeError
  end.

(** [len(v)]. *)
Definition len (v : json) : Result nat :=
  match v with
  | JArr items => Ok (List.length items)
  | JObj fields => Ok (List.length fields)
  | JStr s => Ok (String.length s)
  | _ => Raise TypeError
  end.

(** A string argument of a string function. *)
Definition as_str (v : json) : Result string :=
  match v with
  | JStr s => Ok s
  | _ => Raise AttributeError
  end.

Definition is_str (v : json) (s : string) : bool :=
  match v with
  | JStr s' => String.eqb s' s
  | _ => false
  end.

End PyJson.

Inductive Body : Type :=
| CompletedSuccessfully
| ErrorBody (e : exn).

Record Response : Type := mkResponse {
  statusCode : Z;
  body : Body
}.

Section Handler.
Context {L : Library} {C : Codec}.
Variable w : World.

Definition subject_of (n : nat) : string :=
  "🍔 Your Uber Eats Analysis - " ++ Py.str_of_nat n ++ " Orders Analyzed".

(** The body of the inner [try]. *)
Definition process_file (source_bucket : json) (source_key user_email : string)
  : M unit :=
  (file_content <- call (GetObject source_bucket source_key)
                        (fun h => get_object w h source_bucket source_key) ;;
   orders_data <- lift (json_loads file_content) ;;
   let selected :=
     match orders_data with
     | JObj fields => PyJson.assoc "orders" fields
     | JArr _ => Some orders_data
     | _ => None
     end in
   match selected with
   | None => log ERROR (UnexpectedStructure source_key)
   | Some orders =>
       n <- lift (PyJson.len orders) ;;
       log INFO (FoundOrders n) ;;;
       (* [not orders], for a value that has a length *)
       if (n =? 0)%nat
       then log WARNING (NoOrdersFound source_key)
       else
         order_list <- lift (orders_of_json orders) ;;
         html_content <- analyze_orders w order_list ;;
         success <- send_email w user_email (subject_of n) html_content ;;
         if success
         then log INFO (AnalysisEmailSent user_email)
         else log ERROR (AnalysisEmailFailed user_email)
   end)%M.

(** The [except] clauses of the inner [try]. *)
Definition on_file_error (source_key : string) (e : exn) : M unit :=
  match e with
  | ClientError _ => log ERROR (S3AccessError source_key e)
  | JSONDecodeError _ => log ERROR (JsonParseError source_key e)
  | _ => log ERROR (ProcessingError source_key e)
  end.

(** The inner [try ... except] of one record. *)
Definition process_file_guarded (source_bucket : json)
           (source_key user_email : string) : M unit :=
  try_except (process_file source_bucket source_key user_email)
             (on_file_error source_key).

(** One iteration of [for record in event.get('Records', [])]. *)
Definition process_record (record : json) : M unit :=
  (event_source <- lift (PyJson.get record "eventSource" JNull) ;;
   if PyJson.is_str event_source "aws:s3"
   then
     s3 <- lift (PyJson.index record "s3") ;;
     bucket <- lift (PyJson.index s3 "bucket") ;;
     source_bucket <- lift (PyJson.index bucket "name") ;;
     object <- lift (PyJson.index s3 "object") ;;
     raw_key <- lift (PyJson.index object "key") ;;
     quoted_key <- lift (PyJson.as_str raw_key) ;;
     let source_key := unquote_plus quoted_key in
     log INFO (ProcessingFile source_key source_bucket) ;;;
     if negb (Py.endswith (Py.lower source_key) ".json")
     then log INFO (SkippingNonJson source_key)
     else
       let user_email := extract_user_email_from_key source_key in
       log INFO (ProcessingUser user_email) ;;;
       process_file_guarded source_bucket source_key user_email
   else ret tt)%M.

Fixpoint process_records (records : list json) : M unit :=
  match records with
  | [] => ret tt
  | record :: rest => (process_record record ;;; process_records rest)%M
  end.

(** The outer [try] block. *)
Definition handler_body (event : json) : M Response :=
  (log INFO (ReceivedEvent event) ;;;
   records <- lift (PyJson.get event "Records" (JArr [])) ;;
   items <- lift (PyJson.iter records) ;;
   process_records items ;;;
   ret (mkResponse 200 CompletedSuccessfully))%M.

Definition lambda_handler (event : json) : M Response :=
  try_except (handler_body event)
             (fun e => log ERROR (HandlerError e) ;;;
                       ret (mkResponse 500 (ErrorBody e)))%M.

End Handler.

(** ** Reading dates back *)

(** [int(s)] for a decimal numeral. *)
Definition int_of_str (s : string) : option Z :=
  option_map Z.of_int (NilZero.int_of_string s).

(** The month/day fragment of an incoming order: title-cased month, day
    token and month number, when [date] has exactly these two parts and the
    month is one of the twelve abbreviations. *)
Definition parse_fragment (o : Order) : option (string * string * Z) :=
  match Py.split_ws (date o) with
  | [m; day] =>
      match YearInference.month_to_num (Py.title m) with
      | Ok n => Some (Py.title m, day, n)
      | Raise _ => None
      end
  | _ => None
  end.

(** The calendar date (year, month, day) written in a dated [date]. *)
Definition absolute_date (d : string) : option (Z * Z * Z) :=
  match Py.split_ws d with
  | [m; day; year] =>
      match YearInference.month_to_num m, int_of_str day, int_of_str year with
      | Ok n, Some dd, Some y => Some (y, n, dd)
      | _, _, _ => None
      end
  | _ => None
  end.

(** Chronological order on (year, month, day). *)
Definition date_le (a b : Z * Z * Z) : Prop :=
  let '(y1, m1, d1) := a in
  let '(y2, m2, d2) := b in
  y1 < y2 \/ (y1 = y2 /\ (m1 < m2 \/ (m1 = m2 /\ d1 <= d2))).

(** Every element is no later than its predecessor. *)
Fixpoint non_increasing (l : list (Z * Z * Z)) : Prop :=
  match l with
  | a :: (b :: _) as rest => date_le b a /\ non_increasing rest
  | _ => True
  end.

(** The years of section 4.1 of the specification, from the month numbers:
    the first entry decides the starting year, and the running year drops by
    one at each entry whose month number exceeds its predecessor's. *)
Fixpoint running_years (year prev : Z) (months : list Z) : list Z :=
  match months with
  | [] => []
  | m :: rest =>
      let year := if prev <? m then year - 1 else year in
      year :: running_years year m rest
  end.

Definition inferred_years (current_year : Z) (months : list Z) : list Z :=
  match months with
  | [] => []
  | m :: rest =>
      let year := if m <=? 6 then current_year else current_year - 1 in
      year :: running_years year m rest
  end.

(** The orders with the given fragments and years written into [date]. *)
Fixpoint dated (orders : list Order) (parts : list (string * string * Z))
         (years : list Z) : list Order :=
  match orders, parts, years with
  | o :: orders', (m, day, _) :: parts', y :: years' =>
      set_date o (YearInference.format_date m day y) :: dated orders' parts' years'
  | _, _, _ => []
  end.

Definition month_of (p : string * string * Z) : Z := snd p.

(** ** Neighbouring dates *)

Definition day_of (p : string * string * Z) : string := snd (fst p).

Definition first_of_month (t : Z * Z * Z) : Z * Z * Z :=
  let '(y, m, _) := t in (y, m, 1).

(** Between neighbours of the same month the day does not go up. *)
Fixpoint days_fall_within_months (l : list (Z * Z * Z)) : Prop :=
  match l with
  | (_, m1, d1) :: ((_, m2, d2) :: _) as rest =>
      (m1 = m2 -> d2 <= d1) /\ days_fall_within_months rest
  | _ => True
  end.


(** ** Catalog entries *)

(** An entry of the catalog: an item with its category. *)
Definition entry : Type := (Comparison.Category * Comparison.Item)%type.


Definition entry_quantity (amount : Q) (e : entry) : Q :=
  Comparison.quantity_of amount (snd e).

Definition entry_score (amount : Q) (e : entry) : Q :=
  Comparison.score_of (fst e) (entry_quantity amount e).

Definition eligible (amount : Q) (e : entry) : bool :=
  Comparison.in_range (entry_quantity amount e).

Definition entry_result (amount : Q) (e : entry) : Comparison.ComparisonResult :=
  Comparison.mkResult (Comparison.format_quantity (entry_quantity amount e))
                      (Comparison.name (snd e)).

(** [e] has the least score among the eligible entries of [l], and is the
    first entry of [l] to reach it. *)
Definition first_best (amount : Q) (l : list entry) (e : entry) : Prop :=
  exists l1 l2,
    l = (l1 ++ e :: l2)%list /\
    eligible amount e = true /\
    (forall e', In e' l1 -> eligible amount e' = true ->
                (entry_score amount e < entry_score amount e')%Q) /\
    (forall e', In e' l2 -> eligible amount e' = true ->
                (entry_score amount e <= entry_score amount e')%Q).


(** The loop variables after the entries of [l]: nothing eligible so far, or
    the first best entry with its score. *)
Definition selected (amount : Q) (l : list entry) (st : Comparison.Best) : Prop :=
  (st = Comparison.initial /\ forall e, In e l -> eligible amount e = false) \/
  (exists e, first_best amount l e /\
             st = Comparison.mkBest (Some (entry_result amount e))
                                    (Some (entry_score amount e))).

(** ** Parsed totals *)

(** [total_value] of one order, parsed on its own. *)
Definition parse_total {L : Library} (o : Order) : Result Q :=
  to_numeric (Py.remove_char "$" (total o)).

(** ** Records of an event *)

(** What one record must provide before the inner [try] is entered: [None]
    for a record that is not an S3 event, the bucket and the still-quoted key
    otherwise; a record whose fields cannot be read raises. *)
Definition envelope (record : json) : Result (option (json * string)) :=
  (event_source <- PyJson.get record "eventSource" JNull ;;
   if PyJson.is_str event_source "aws:s3"
   then
     s3 <- PyJson.index record "s3" ;;
     bucket <- PyJson.index s3 "bucket" ;;
     source_bucket <- PyJson.index bucket "name" ;;
     object <- PyJson.index s3 "object" ;;
     raw_key <- PyJson.index object "key" ;;
     quoted_key <- PyJson.as_str raw_key ;;
     Ok (Some (source_bucket, quoted_key))
   else Ok None)%result.

Definition error_log (source_key : string) (e : exn) : Call :=
  Log ERROR
      match e with
      | ClientError _ => S3AccessError source_key e
      | JSONDecodeError _ => JsonParseError source_key e
      | _ => ProcessingError source_key e
      end.

Definition completed : Response := mkResponse 200 CompletedSuccessfully.

(** ** Year boundaries *)


(** ** Fields kept by the analysis *)

(** What an order carries besides its date. *)
Definition kept_fields (o : Order) : string * string * string * bool :=
  (restaurantName o, time o, total o, canceled o).

(** ** Calls added by a computation *)

(** Running [m] only appends calls to the history; what it appends
    satisfies [P], and a value it returns satisfies [post]. *)
Definition runs {A} (P : History -> Prop) (post : A -> Prop) (m : M A) : Prop :=
  forall h, exists l,
    snd (m h) = (h ++ l)%list /\ P l /\ forall a, fst (m h) = Ok a -> post a.

Definition is_send (c : Call) : bool :=
  match c with SendGridSend _ _ => true | _ => false end.

Definition is_get (c : Call) : bool :=
  match c with GetObject _ _ => true | _ => false end.

Definition is_put (c : Call) : bool :=
  match c with PutObject _ _ _ _ => true | _ => false end.

Definition count (f : Call -> bool) (l : History) : nat :=
  List.length (filter f l).

(** The key under which [upload_chart_to_s3] stores a chart. *)
Definition chart_key (timestamp chart_name : string) : string :=
  "charts/" ++ timestamp ++ "_" ++ chart_name ++ "_chart.png".

(** The bucket [upload_chart_to_s3] writes to. *)
Definition charts_bucket (w : World) : string :=
  match environ w "CHARTS_BUCKET_NAME" with
  | Some b => b
  | None => default_bucket
  end.

(** The key filter of the bucket notification that triggers the analyzer
    ([NotificationKeyFilter(prefix="orders/", suffix=".json")] in the
    stack). *)
Definition notification_filter (key : string) : bool :=
  String.prefix "orders/" key && Py.endswith key ".json".

(** What [upload_chart_to_s3] may do for the chart [chart_name]: render,
    log, and store under that chart's key in the charts bucket. *)
Definition chart_call (w : World) (timestamp chart_name : string) (c : Call) : Prop :=
  match c with
  | SaveFig _ | Log _ _ => True
  | PutObject bucket key _ content_type =>
      bucket = charts_bucket w /\
      key = chart_key timestamp chart_name /\
      content_type = "image/png"
  | GetObject _ _ | SendGridSend _ _ => False
  end.

(** At most [gets] objects read, [sends] messages handed to SendGrid and
    [puts] objects stored. *)
Definition within (gets sends puts : nat) (l : History) : Prop :=
  (count is_get l <= gets)%nat /\
  (count is_send l <= sends)%nat /\
  (count is_put l <= puts)%nat.

(** The records visited by the loop of [lambda_handler]; none when the
    event cannot be read. *)
Definition records_of (event : json) : list json :=
  match (records <- PyJson.get event "Records" (JArr []) ;;
         PyJson.iter records)%result with
  | Ok items => items
  | Raise _ => []
  end.

(** A SendGrid call made with the configured key, for the message that
    [send_email] builds from its arguments. *)
Definition sent_mail (w : World) (to_email subject : string) (content : Document)
           (c : Call) : Prop :=
  match c with
  | SendGridSend api_key message =>
      environ w "DEREK_SENDGRID_API_KEY" = Some api_key /\
      exists sender,
        environ w "DEREK_SENDER_EMAIL" = Some sender /\
        message = mkMail sender to_email subject content
  | _ => True
  end.


(** * Examples *)

Definition example_orders : list Order :=
  [ mkOrder "A" "Jan 5" "6:00 PM" "$20.00" false;
    mkOrder "B" "Dec 20" "1:00 PM" "$10.00" false;
    mkOrder "C" "Dec 1" "9:30 AM" "$12.50" true ].

Definition example_parts : list (string * string * Z) :=
  [ ("Jan", "5", 1); ("Dec", "20", 12); ("Dec", "1", 12) ].

Definition same_month_orders : list Order :=
  [ mkOrder "A" "Jan 5" "6:00 PM" "$20.00" false;
    mkOrder "B" "Jan 20" "1:00 PM" "$10.00" false ].

(** A concrete library, for evaluating the pipeline on examples. *)

Module Demo.

(** A decimal numeral with an optional sign and fraction. *)
Definition digits (s : string) : option Z :=
  option_map Z.of_uint (NilZero.uint_of_string s).

Definition decimal (s : string) : Result Q :=
  let '(negative, body) :=
    match s with
    | String "-" rest => (true, rest)
    | _ => (false, s)
    end in
  let signed (q : Q) : Q := if negative then (- q)%Q else q in
  match Py.split_on "." body with
  | [whole] =>
      match digits whole with
      | Some n => Ok (signed (inject_Z n))
      | None => Raise (ValueError "not a number")
      end
  | [whole; fraction] =>
      match digits whole, digits fraction with
      | Some n, Some f =>
          let scale := 10 ^ Z.of_nat (String.length fraction) in
          Ok (signed (Qred (Qmake (n * scale + f) (Z.to_pos scale))))
      | _, _ => Raise (ValueError "not a number")
      end
  | _ => Raise (ValueError "not a number")
  end.

(** Days from 1970-01-01 to a civil date, and back to (year, month). *)
Definition days_from_civil (y m d : Z) : Z :=
  let y' := if m <=? 2 then y - 1 else y in
  let era := y' / 400 in
  let yoe := y' - era * 400 in
  let doy := (153 * (if 2 <? m then m - 3 else m + 9) + 2) / 5 + d - 1 in
  let doe := yoe * 365 + yoe / 4 - yoe / 100 + doy in
  era * 146097 + doe - 719468.

Definition civil_year_month (days : Z) : Z * Z :=
  let z := days + 719468 in
  let era := z / 146097 in
  let doe := z - era * 146097 in
  let yoe := (doe - doe / 1460 + doe / 36524 - doe / 146096) / 365 in
  let doy := doe - (365 * yoe + yoe / 4 - yoe / 100) in
  let mp := (5 * doy + 2) / 153 in
  let m := if mp <? 10 then mp + 3 else mp - 9 in
  (yoe + era * 400 + (if m <=? 2 then 1 else 0), m).

Definition ns_per_minute : Z := 60 * 1000000000.
Definition ns_per_day : Z := 1440 * ns_per_minute.

(** "Mon D YYYY H:MM AM|PM" as nanoseconds since 1970-01-01. *)
Definition timestamp (s : string) : Result Z :=
  match Py.split_ws s with
  | [mon; day; year; clock; half] =>
      match YearInference.month_to_num (Py.title mon),
            int_of_str day, int_of_str year,
            map int_of_str (Py.split_on ":" clock) with
      | Ok m, Some d, Some y, [Some hh; Some mm] =>
          let hour := hh mod 12 + (if String.eqb (Py.lower half) "pm" then 12 else 0) in
          Ok (days_from_civil y m d * ns_per_day + (hour * 60 + mm) * ns_per_minute)
      | _, _, _, _ => Raise (ValueError "unknown datetime string format")
      end
  | _ => Raise (ValueError "unknown datetime string format")
  end.

Definition hour (t : Z) : Z := (t / (60 * ns_per_minute)) mod 24.

Definition day_names : list string :=
  ["Monday"; "Tuesday"; "Wednesday"; "Thursday"; "Friday"; "Saturday"; "Sunday"].

Definition day_name (t : Z) : string :=
  nth (Z.to_nat ((t / ns_per_day + 3) mod 7)) day_names "".

Definition month_period (t : Z) : Z :=
  let '(y, m) := civil_year_month (t / ns_per_day) in (y - 1970) * 12 + (m - 1).

Fixpoint insert {A} (key : A -> Z) (x : A) (l : list A) : list A :=
  match l with
  | [] => [x]
  | y :: rest => if key x <? key y then x :: l else y :: insert key x rest
  end.

Definition sort {A} (key : A -> Z) (l : list A) : list A :=
  fold_right (insert key) [] l.

(** The value with the most occurrences, the earliest one among equals. *)
Definition mode {A} (eqb : A -> A -> bool) (first : A) (rest : list A) : A :=
  let occurrences x := List.length (filter (eqb x) (first :: rest)) in
  fold_left (fun best x => if (occurrences best <? occurrences x)%nat then x else best)
            rest first.

Definition cell (s : string) : string := "<td>" ++ s ++ "</td>".

Definition table (rows : list (list string)) : string :=
  "<table>"
    ++ String.concat "" (map (fun r => "<tr>" ++ String.concat "" (map cell r) ++ "</tr>") rows)
    ++ "</table>".

Definition monthly_table (rows : list (Z * Q)) : string :=
  table (map (fun r => [Py.str_of_Z (fst r); Fmt.fixed 2 (snd r)]) rows).

Definition order_table (rows : list (string * string * string * string)) : string :=
  table (map (fun '(a, b, c, d) => [a; b; c; d]) rows).

(** A world with default configuration in which [publish] decides whether the
    object store accepts a chart, by its key. *)
Definition world (publish : string -> bool) : World := {|
  environ := fun _ => None;
  now_strftime := fun _ => "20250701_120000";
  savefig := fun _ _ => Ok "PNG";
  put_object := fun _ _ key _ _ =>
                  if publish key then Ok tt else Raise (ClientError "AccessDenied");
  get_object := fun _ _ _ => Raise (ClientError "NoSuchKey");
  sendgrid_send := fun _ _ _ => Ok 202
|}.

Definition two_orders : list Order :=
  [ mkOrder "A" "Jun 1" "6:00 PM" "$20.00" false;
    mkOrder "B" "May 1" "1:00 PM" "$10.00" false ].


End Demo.

(** A codec that reads the empty array only and leaves keys as they are,
    for running the entry point on an example. *)
Definition example_codec : Codec := {|
  json_loads := fun s =>
                  if String.eqb s "[]" then Ok (JArr [])
                  else Raise (JSONDecodeError "Expecting value");
  unquote_plus := fun s => s;
  orders_of_json := fun _ => Raise TypeError
|}.

Definition example_record (key : string) : json :=
  JObj [ ("eventSource", JStr "aws:s3");
         ("s3", JObj [ ("bucket", JObj [("name", JStr "ubereats-orders-bucket")]);
                       ("object", JObj [("key", JStr key)]) ]) ].

Definition example_event : json :=
  JObj [ ("Records",
          JArr [ example_record "orders/a@example.com/orders.json";
                 example_record "orders/b@example.com/orders.json" ]) ].



(** * Properties *)

(** ** Year inference *)

Section YearInferenceFacts.
Import YearInference.

Lemma lookup_month_cases (s : string) (n : Z) :
  lookup s month_table = Some n ->
  In (s, n) month_table.
Proof.
  cbv [month_table month_names enumerate_from lookup].
  repeat (destruct (String.eqb _ s) eqn:E;
          [ apply String.eqb_eq in E; subst s; intros [= <-]; simpl; tauto | clear E ]).
  discriminate.
Qed.

Lemma first_half_by_number (s : string) (n : Z) :
  month_to_num s = Ok n ->
  in_first_half s = (n <=? 6) /\ 1 <= n <= 12.
Proof.
  unfold month_to_num.
  destruct (lookup s month_table) as [k|] eqn:E; [|discriminate].
  intros [= ->].
  apply lookup_month_cases in E.
  unfold month_table, month_names in E; simpl in E.
  repeat (destruct E as [E|E]; [ injection E as <- <-; split; [reflexivity | lia] | ]).
  contradiction.
Qed.

(** The loop from index [S k] on: the running year follows the months. *)
Lemma year_loop_running orders :
  forall parts k year prev,
    Forall2 (fun o p => parse_fragment o = Some p) orders parts ->
    year_loop (S k) year prev orders
    = Ok (dated orders parts (running_years year prev (map month_of parts))).
Proof.
  induction orders as [|o orders IH]; intros parts k year prev H; inversion H; subst.
  - reflexivity.
  - match goal with
    | [ Hp : parse_fragment o = Some ?y, Hr : Forall2 _ orders ?l' |- _ ] =>
        rename y into p; rename l' into ps; rename Hp into Hpf; rename Hr into Hrest
    end.
    unfold parse_fragment in Hpf.
    simpl year_loop.
    destruct (Py.split_ws (date o)) as [|m [|day [|x l]]]; try discriminate.
    destruct (month_to_num (Py.title m)) as [n|e] eqn:En; [|discriminate].
    injection Hpf as <-.
    simpl rbind.
    rewrite (IH ps (S k) _ n Hrest).
    reflexivity.
Qed.

(** The whole function on well-formed fragments. *)
Lemma add_years_to_orders_dated orders parts current_year :
  Forall2 (fun o p => parse_fragment o = Some p) orders parts ->
  add_years_to_orders orders current_year
  = Ok (dated orders parts (inferred_years current_year (map month_of parts))).
Proof.
  intros H.
  destruct H as [|o p orders ps Hpf Hrest]; [reflexivity|].
  unfold add_years_to_orders.
  pose proof Hpf as Hpf'.
  unfold parse_fragment in Hpf.
  destruct (Py.split_ws (date o)) as [|m [|day [|x l]]] eqn:Es; try discriminate.
  destruct (month_to_num (Py.title m)) as [n|e] eqn:En; [|discriminate].
  injection Hpf as <-.
  simpl rbind.
  simpl year_loop. rewrite Es, En. simpl rbind.
  rewrite (year_loop_running orders ps 0%nat _ n Hrest).
  destruct (first_half_by_number _ _ En) as [-> _].
  reflexivity.
Qed.

End YearInferenceFacts.

Lemma running_years_length (months : list Z) :
  forall year prev, List.length (running_years year prev months) = List.length months.
Proof.
  induction months as [|m months IH]; intros; simpl; [reflexivity|].
  now rewrite IH.
Qed.

Lemma inferred_years_length (current_year : Z) (months : list Z) :
  List.length (inferred_years current_year months) = List.length months.
Proof.
  destruct months; simpl; [reflexivity|].
  now rewrite running_years_length.
Qed.


Lemma dated_length orders :
  forall parts years,
    List.length parts = List.length orders ->
    List.length years = List.length orders ->
    List.length (dated orders parts years) = List.length orders.
Proof.
  induction orders as [|o orders IH]; intros [|[[m day] n] parts] [|y years] Hp Hy;
    simpl in *; try discriminate; try reflexivity.
  f_equal. apply IH; congruence.
Qed.


Lemma parse_fragment_inv (o : Order) (m day : string) (n : Z) :
  parse_fragment o = Some (m, day, n) ->
  exists m0,
    Py.split_ws (date o) = [m0; day] /\ m = Py.title m0 /\
    YearInference.month_to_num m = Ok n.
Proof.
  unfold parse_fragment.
  destruct (Py.split_ws (date o)) as [|m0 [|d [|x l]]]; try discriminate.
  destruct (YearInference.month_to_num (Py.title m0)) as [k|e] eqn:E; [|discriminate].
  intros [= <- <- <-]. now exists m0.
Qed.





(** ** Tokens and numerals *)

Section Tokens.
Import Py.

Lemma append_empty_r (s : string) : s ++ "" = s.
Proof. induction s; simpl; congruence. Qed.

Lemma append_assoc (a b c : string) : (a ++ b) ++ c = a ++ (b ++ c).
Proof. induction a; simpl; congruence. Qed.

Lemma no_space_app (a b : string) :
  no_space (a ++ b) = no_space a && no_space b.
Proof.
  induction a as [|c a IH]; simpl; [reflexivity|].
  now rewrite IH, andb_assoc.
Qed.

Lemma is_empty_app (a b : string) :
  is_empty (a ++ b) = is_empty a && is_empty b.
Proof. now destruct a. Qed.

(** Reading a run without whitespace extends the current token. *)
Lemma split_ws_from_run (t : string) :
  forall cur rest,
    no_space t = true ->
    split_ws_from cur (t ++ rest) = split_ws_from (cur ++ t) rest.
Proof.
  induction t as [|c t IH]; intros cur rest H; simpl in *.
  - now rewrite append_empty_r.
  - apply andb_prop in H as [Hc Ht].
    apply negb_true_iff in Hc. rewrite Hc.
    rewrite IH by assumption.
    unfold snoc. now rewrite append_assoc.
Qed.

(** A space closes a started token. *)
Lemma split_ws_from_space (cur rest : string) :
  is_empty cur = false ->
  split_ws_from cur (String " " rest) = cur :: split_ws_from "" rest.
Proof. intros H. simpl. now rewrite H. Qed.

Lemma split_ws_three (a b c : string) :
  is_token a = true -> is_token b = true -> is_token c = true ->
  split_ws (a ++ " " ++ b ++ " " ++ c) = [a; b; c].
Proof.
  unfold is_token, split_ws.
  intros Ha Hb Hc.
  apply andb_prop in Ha as [Ha1 Ha2], Hb as [Hb1 Hb2], Hc as [Hc1 Hc2].
  apply negb_true_iff in Ha1, Hb1, Hc1.
  rewrite split_ws_from_run by assumption.
  change ("" ++ a) with a. change (" " ++ b ++ " " ++ c) with (String " " (b ++ " " ++ c)).
  rewrite split_ws_from_space by assumption.
  rewrite split_ws_from_run by assumption.
  change ("" ++ b) with b. change (" " ++ c) with (String " " c).
  rewrite split_ws_from_space by assumption.
  rewrite <- (append_empty_r c) at 1.
  rewrite split_ws_from_run by assumption.
  simpl. now rewrite Hc1.
Qed.

(** Everything [split()] returns is a token. *)
Lemma split_ws_from_tokens (s : string) :
  forall cur,
    no_space cur = true ->
    Forall (fun t => is_token t = true) (split_ws_from cur s).
Proof.
  induction s as [|c s IH]; intros cur Hcur; simpl.
  - destruct (is_empty cur) eqn:E; constructor; [|constructor].
    unfold is_token. now rewrite E, Hcur.
  - destruct (is_space c) eqn:Ec.
    + destruct (is_empty cur) eqn:E.
      * now apply IH.
      * constructor; [|now apply IH].
        unfold is_token. now rewrite E, Hcur.
    + apply IH. unfold snoc. rewrite no_space_app, Hcur. simpl.
      now rewrite Ec.
Qed.

Lemma split_ws_tokens (s : string) :
  Forall (fun t => is_token t = true) (split_ws s).
Proof. now apply split_ws_from_tokens. Qed.

Lemma is_space_to_upper (c : ascii) : is_space (to_upper c) = is_space c.
Proof. destruct c as [[] [] [] [] [] [] [] []]; reflexivity. Qed.

Lemma is_space_to_lower (c : ascii) : is_space (to_lower c) = is_space c.
Proof. destruct c as [[] [] [] [] [] [] [] []]; reflexivity. Qed.

Lemma title_from_token (s : string) :
  forall b, is_token (title_from b s) = is_token s.
Proof.
  assert (H : forall b, no_space (title_from b s) = no_space s).
  { induction s as [|c s IH]; intros b; simpl; [reflexivity|].
    rewrite IH. destruct b; now rewrite ?is_space_to_upper, ?is_space_to_lower. }
  intros b. unfold is_token. rewrite H. now destruct s.
Qed.

Lemma digits_no_space (d : Decimal.uint) :
  no_space (NilEmpty.string_of_uint d) = true.
Proof. induction d; simpl; auto. Qed.

Lemma str_of_Z_token (z : Z) : is_token (str_of_Z z) = true.
Proof.
  unfold str_of_Z, NilZero.string_of_int, NilZero.string_of_uint.
  destruct (Z.to_int z) as [d|d]; destruct d; unfold is_token; simpl;
    now rewrite ?digits_no_space.
Qed.

Lemma int_of_str_of_Z (z : Z) : int_of_str (str_of_Z z) = Some z.
Proof.
  unfold int_of_str, str_of_Z.
  rewrite NilZero.isi.
  - simpl. now rewrite DecimalZ.of_to.
  - destruct z; simpl; try discriminate.
    intros [= H]. now apply Unsigned.to_uint_nonnil in H.
  - destruct z; simpl; try discriminate.
    intros [= H]. now apply Unsigned.to_uint_nonnil in H.
Qed.

End Tokens.

(** ** Monotonicity of the inferred dates *)

Lemma absolute_date_format (m day : string) (n d y : Z) :
  Py.is_token m = true -> Py.is_token day = true ->
  YearInference.month_to_num m = Ok n ->
  int_of_str day = Some d ->
  absolute_date (YearInference.format_date m day y) = Some (y, n, d).
Proof.
  intros Hm Hd Hn Hday.
  unfold absolute_date, YearInference.format_date.
  rewrite (split_ws_three m day (Py.str_of_Z y) Hm Hd (str_of_Z_token y)).
  now rewrite Hn, Hday, int_of_str_of_Z.
Qed.

Lemma parse_fragment_tokens (o : Order) (m day : string) (n : Z) :
  parse_fragment o = Some (m, day, n) ->
  Py.is_token m = true /\ Py.is_token day = true /\
  YearInference.month_to_num m = Ok n.
Proof.
  intros H. destruct (parse_fragment_inv _ _ _ _ H) as (m0 & Hs & -> & Hn).
  pose proof (split_ws_tokens (date o)) as Ht. rewrite Hs in Ht.
  inversion Ht as [|? ? H0 Ht']; subst. inversion Ht' as [|? ? H1 _]; subst.
  unfold Py.title. now rewrite title_from_token.
Qed.

(** The dates written by [dated] read back as (year, month number, day). *)
Lemma dated_absolute orders :
  forall parts days years,
    Forall2 (fun o p => parse_fragment o = Some p) orders parts ->
    Forall2 (fun p d => int_of_str (day_of p) = Some d) parts days ->
    List.length years = List.length orders ->
    map (fun o => absolute_date (date o)) (dated orders parts years)
    = map Some (combine (combine years (map month_of parts)) days).
Proof.
  induction orders as [|o orders IH];
    intros [|[[m day] n] parts] [|d days] [|yr years] Hp Hd Hy;
    try discriminate; try reflexivity;
    try (now inversion Hp); try (now inversion Hd).
  apply Forall2_cons_iff in Hp as [Hf Hp].
  apply Forall2_cons_iff in Hd as [Hday0 Hd].
  destruct (parse_fragment_tokens _ _ _ _ Hf) as (Hm & Hday & Hn).
  simpl. f_equal.
  - apply absolute_date_format; assumption.
  - apply IH; try assumption. simpl in Hy. congruence.
Qed.

(** Whatever the days, the running year keeps (year, month) from going
    forward; with days that fall within each month so do the full dates. *)
Lemma running_years_non_increasing (months : list Z) :
  forall days year m d,
    List.length days = List.length months ->
    let dates := combine (combine (year :: running_years year m months) (m :: months))
                         (d :: days) in
    non_increasing (map first_of_month dates) /\
    (days_fall_within_months dates -> non_increasing dates).
Proof.
  induction months as [|m1 months IH]; intros [|d1 days] year m d Hlen;
    try discriminate; [simpl; tauto|].
  specialize (IH days (if m <? m1 then year - 1 else year) m1 d1
                 ltac:(simpl in Hlen; congruence)).
  cbv zeta in IH. destruct IH as [IH1 IH2].
  cbv zeta.
  change (running_years year m (m1 :: months))
    with ((if m <? m1 then year - 1 else year)
            :: running_years (if m <? m1 then year - 1 else year) m1 months).
  remember (if m <? m1 then year - 1 else year) as y1 eqn:Ey.
  remember (running_years y1 m1 months) as ys eqn:Eys.
  change (combine (combine (year :: y1 :: ys) (m :: m1 :: months)) (d :: d1 :: days))
    with ((year, m, d) :: combine (combine (y1 :: ys) (m1 :: months)) (d1 :: days)).
  change (combine (combine (y1 :: ys) (m1 :: months)) (d1 :: days))
    with ((y1, m1, d1) :: combine (combine ys months) days) in *.
  split.
  - split; [|exact IH1].
    simpl. destruct (m <? m1) eqn:E; subst y1.
    + left. lia.
    + apply Z.ltb_ge in E. right. split; [reflexivity|]. lia.
  - intros [Hd Hrest]. split; [|now apply IH2].
    simpl. destruct (m <? m1) eqn:E; subst y1.
    + left. lia.
    + apply Z.ltb_ge in E. right. split; [reflexivity|].
      destruct (Z.eq_dec m1 m) as [->|Hne]; [right; split; [reflexivity|now apply Hd] | left; lia].
Qed.

Lemma map_Some_inj {A} (a b : list A) : map Some a = map Some b -> a = b.
Proof.
  revert b. induction a as [|x a IH]; intros [|y b] H; simpl in H;
    try discriminate; [reflexivity|].
  injection H as -> H. f_equal. now apply IH.
Qed.

(** C2, as the code has it. For every non-empty list of well-formed
    fragments the dated orders read back as calendar dates whose
    (year, month) never goes forward; the full dates are non-increasing
    whenever, between neighbours of the same month, the day does not go up. *)
Theorem dates_non_increasing
        (orders : list Order) (parts : list (string * string * Z))
        (days : list Z) (current_year : Z) :
  orders <> [] ->
  Forall2 (fun o p => parse_fragment o = Some p) orders parts ->
  Forall2 (fun p d => int_of_str (day_of p) = Some d) parts days ->
  exists out dates,
    YearInference.add_years_to_orders orders current_year = Ok out /\
    List.length out = List.length orders /\
    map (fun o => absolute_date (date o)) out = map Some dates /\
    non_increasing (map first_of_month dates) /\
    (days_fall_within_months dates -> non_increasing dates).
Proof.
  intros Hne Hp Hd.
  assert (Hlen : List.length parts = List.length orders)
    by (symmetry; eapply Forall2_length; eauto).
  assert (Hdl : List.length days = List.length parts)
    by (symmetry; eapply Forall2_length; eauto).
  set (years := inferred_years current_year (map month_of parts)).
  assert (Hy : List.length years = List.length orders)
    by (unfold years; rewrite inferred_years_length, length_map; exact Hlen).
  exists (dated orders parts years),
         (combine (combine years (map month_of parts)) days).
  split; [now apply add_years_to_orders_dated|].
  split; [now apply dated_length|].
  split; [now apply dated_absolute|].
  destruct parts as [|p parts].
  { destruct orders; [contradiction|discriminate]. }
  destruct days as [|d days]; [discriminate|].
  unfold years. simpl map. unfold inferred_years.
  apply running_years_non_increasing.
  rewrite length_map. simpl in Hdl. congruence.
Qed.

Lemma dates_non_increasing_witness :
  exists out dates,
    YearInference.add_years_to_orders example_orders 2025 = Ok out /\
    map (fun o => absolute_date (date o)) out = map Some dates /\
    non_increasing dates.
Proof.
  destruct (dates_non_increasing example_orders example_parts [5; 20; 1] 2025)
    as (out & dates & H1 & _ & H3 & _ & H5).
  - discriminate.
  - repeat constructor.
  - repeat constructor.
  - exists out, dates. split; [exact H1|]. split; [exact H3|].
    apply H5.
    vm_compute in H1. injection H1 as <-.
    assert (E : dates = [(2025, 1, 5); (2024, 12, 20); (2024, 12, 1)])
      by (apply map_Some_inj; rewrite <- H3; reflexivity).
    rewrite E. simpl. lia.
Defined.

(** C2, as stated, fails: "Jan 5" then "Jan 20" is consistent with a
    most-recent-first ordering (5 January 2025, then 20 January 2024), but
    both entries are given 2025, so the second date is later than the
    first. *)
Lemma dates_non_increasing_counterexample :
  non_increasing [(2025, 1, 5); (2024, 1, 20)] /\
  exists out,
    YearInference.add_years_to_orders same_month_orders 2025 = Ok out /\
    map (fun o => absolute_date (date o)) out
    = map Some [(2025, 1, 5); (2025, 1, 20)] /\
    ~ non_increasing [(2025, 1, 5); (2025, 1, 20)].
Proof.
  split.
  - simpl. split; [left; lia | exact I].
  - eexists. split; [reflexivity|]. split; [reflexivity|].
    simpl. intros [H _]. lia.
Qed.

(** ** Comparison selector *)

Section ComparisonFacts.
Import Comparison.
Variable amount : Q.

Lemma Qlt_bool_iff (x y : Q) : Fmt.Qlt_bool x y = true <-> (x < y)%Q.
Proof.
  unfold Fmt.Qlt_bool. rewrite negb_true_iff.
  split.
  - intros H. apply Qnot_le_lt. intros Hle.
    apply Qle_bool_iff in Hle. congruence.
  - intros H. destruct (Qle_bool y x) eqn:E; [|reflexivity].
    apply Qle_bool_iff in E. exfalso. now apply (Qlt_not_le x y).
Qed.

Lemma Qlt_bool_false (x y : Q) : Fmt.Qlt_bool x y = false <-> (y <= x)%Q.
Proof.
  unfold Fmt.Qlt_bool. rewrite negb_false_iff. apply Qle_bool_iff.
Qed.






End ComparisonFacts.


(** ** Identity extraction *)

Section SplitFacts.
Import Py.
Variable sep : ascii.

Lemma split_on_from_nonempty (s : string) :
  forall cur, split_on_from sep cur s <> [].
Proof.
  induction s as [|c s IH]; intros cur; simpl; [discriminate|].
  destruct (Ascii.eqb c sep); [discriminate | apply IH].
Qed.

Lemma join_cons (p : string) (rest : list string) :
  rest <> [] ->
  join (String sep "") (p :: rest) = p ++ String sep "" ++ join (String sep "") rest.
Proof. destruct rest; [contradiction | reflexivity]. Qed.

(** Joining the segments with the separator gives the string back. *)
Lemma join_split_on_from (s : string) :
  forall cur, join (String sep "") (split_on_from sep cur s) = cur ++ s.
Proof.
  induction s as [|c s IH]; intros cur; simpl split_on_from.
  - simpl. now rewrite append_empty_r.
  - destruct (Ascii.eqb c sep) eqn:E.
    + apply Ascii.eqb_eq in E. subst c.
      rewrite join_cons by apply split_on_from_nonempty.
      now rewrite IH.
    + rewrite IH. unfold snoc. now rewrite append_assoc.
Qed.

Lemma contains_app (c : ascii) (a b : string) :
  contains c (a ++ b) = contains c a || contains c b.
Proof.
  induction a as [|d a IH]; simpl; [reflexivity|].
  now rewrite IH, orb_assoc.
Qed.

(** No segment holds the separator. *)
Lemma split_on_from_segments (s : string) :
  forall cur,
    contains sep cur = false ->
    Forall (fun p => contains sep p = false) (split_on_from sep cur s).
Proof.
  induction s as [|c s IH]; intros cur Hcur; simpl.
  - now constructor.
  - destruct (Ascii.eqb c sep) eqn:E.
    + constructor; [assumption|]. now apply IH.
    + apply IH. unfold snoc. rewrite contains_app, Hcur. simpl.
      now rewrite E.
Qed.

End SplitFacts.

Lemma find_first {A} (f : A -> bool) (l : list A) (x : A) :
  find f l = Some x ->
  exists before after,
    l = (before ++ x :: after)%list /\ f x = true /\
    Forall (fun y => f y = false) before.
Proof.
  induction l as [|a l IH]; simpl; [discriminate|].
  destruct (f a) eqn:E.
  - intros [= ->]. exists [], l. repeat split; [assumption | constructor].
  - intros H. destruct (IH H) as (before & after & -> & Hx & Hb).
    exists (a :: before), after. repeat split; [assumption | now constructor].
Qed.

Lemma find_none_all {A} (f : A -> bool) (l : list A) :
  find f l = None -> Forall (fun y => f y = false) l.
Proof.
  induction l as [|a l IH]; simpl; [constructor|].
  destruct (f a) eqn:E; [discriminate|]. intros H. constructor; auto.
Qed.

Lemma last_two {A} (l : list A) :
  (1 < List.length l)%nat ->
  exists before a b, l = (before ++ [a; b])%list.
Proof.
  intros H.
  destruct (exists_last (l := l)) as (l' & b & ->);
    [destruct l; [simpl in H; lia | discriminate]|].
  rewrite length_app in H. simpl in H.
  destruct (exists_last (l := l')) as (before & a & ->);
    [destruct l'; [simpl in H; lia | discriminate]|].
  exists before, a, b. now rewrite <- app_assoc.
Qed.

(** C7. [extract_user_email_from_key] is a total function of the key: it
    returns the first '/'-separated segment that contains both '@' and '.';
    with no such segment it returns the segment before the last one when
    there are at least two segments, and "unknown" otherwise. *)
Theorem extract_user_email_cases (s3_key : string) :
  let parts := Py.split_on "/" s3_key in
  Py.join "/" parts = s3_key /\
  Forall (fun p => Py.contains "/" p = false) parts /\
  ((exists before part after,
       parts = (before ++ part :: after)%list /\
       Py.contains "@" part = true /\ Py.contains "." part = true /\
       Forall (fun p => Py.contains "@" p && Py.contains "." p = false) before /\
       extract_user_email_from_key s3_key = part)
   \/
   (Forall (fun p => Py.contains "@" p && Py.contains "." p = false) parts /\
    ((exists before a b,
         parts = (before ++ [a; b])%list /\
         extract_user_email_from_key s3_key = a)
     \/
     (parts = [s3_key] /\ extract_user_email_from_key s3_key = "unknown")))).
Proof.
  intros parts.
  assert (Hjoin : Py.join "/" parts = s3_key)
    by (unfold parts, Py.split_on; now rewrite join_split_on_from).
  split; [exact Hjoin|].
  split; [now apply split_on_from_segments|].
  unfold extract_user_email_from_key. fold parts.
  destruct (find looks_like_email parts) as [part|] eqn:Ef.
  - left. destruct (find_first _ _ _ Ef) as (before & after & Hp & Hx & Hb).
    exists before, part, after.
    apply andb_prop in Hx as [H1 H2]. repeat split; assumption.
  - right. split; [now apply find_none_all|].
    destruct (1 <? List.length parts)%nat eqn:El.
    + left. apply Nat.ltb_lt in El.
      destruct (last_two parts El) as (before & a & b & Hp).
      exists before, a, b. split; [assumption|].
      rewrite Hp, length_app. simpl List.length.
      replace (List.length before + 2 - 2)%nat with (List.length before + 0)%nat by lia.
      now rewrite app_nth2_plus.
    + right. apply Nat.ltb_ge in El.
      assert (Hne : parts <> []) by apply split_on_from_nonempty.
      destruct parts as [|p [|q l]]; [contradiction | | simpl in El; lia].
      simpl in Hjoin. subst p. split; reflexivity.
Qed.

(** ** Report pipeline *)

Section PipelineFacts.
Context {L : Library}.
Variable w : World.


(** The publish step always returns: a URL when the [try] block completes,
    [None] when it raises. *)
Lemma upload_chart_to_s3_total (fig : Figure) (chart_name timestamp : string)
      (h : History) :
  (exists url h',
      upload_chart_body w fig chart_name timestamp h = (Ok (Some url), h') /\
      truthy (Some url) = true /\
      upload_chart_to_s3 w fig chart_name timestamp h = (Ok (Some url), h'))
  \/
  (exists e h',
      upload_chart_body w fig chart_name timestamp h = (Raise e, h') /\
      upload_chart_to_s3 w fig chart_name timestamp h
      = (Ok None, (h' ++ [Log ERROR (UploadError chart_name e)])%list)).
Proof.
  unfold upload_chart_to_s3, try_except, upload_chart_body, bind, call, log, ret.
  destruct (savefig w h fig) as [body|e]; [|right; now eauto].
  destruct (put_object w _ _ _ body "image/png") as [[]|e]; [|right; now eauto].
  left. eexists _, _. repeat split.
Qed.

End PipelineFacts.

(** ** The example library *)

Module DemoLibrary.
Import Demo.

Lemma insert_perm {A} (key : A -> Z) (x : A) (l : list A) :
  Permutation (insert key x l) (x :: l).
Proof.
  induction l as [|y l IH]; simpl; [reflexivity|].
  destruct (key x <? key y); [reflexivity|].
  rewrite IH. apply perm_swap.
Qed.

Lemma sort_perm {A} (key : A -> Z) (l : list A) : Permutation (sort key l) l.
Proof.
  induction l as [|x l IH]; simpl; [reflexivity|].
  rewrite insert_perm. now constructor.
Qed.

Lemma insert_sorted {A} (key : A -> Z) (x : A) (l : list A) :
  Sorted (fun a b => key a <= key b) l ->
  Sorted (fun a b => key a <= key b) (insert key x l).
Proof.
  induction 1 as [|y l Hs IH Hhd]; simpl.
  - repeat constructor.
  - destruct (key x <? key y) eqn:E.
    + apply Z.ltb_lt in E. constructor; [now constructor|]. constructor. lia.
    + apply Z.ltb_ge in E. constructor; [exact IH|].
      destruct Hhd as [|z l Hyz]; simpl.
      * now constructor.
      * destruct (key x <? key z); now constructor.
Qed.

Lemma sort_sorted {A} (key : A -> Z) (l : list A) :
  Sorted (fun a b => key a <= key b) (sort key l).
Proof.
  induction l as [|x l IH]; simpl; [constructor|].
  now apply insert_sorted.
Qed.

#[local] Instance library : Library := {|
  to_numeric := decimal;
  to_datetime := timestamp;
  dt_hour := hour;
  dt_day_name := day_name;
  dt_month := month_period;
  sort_values := @sort;
  sort_values_perm := @sort_perm;
  sort_values_sorted := @sort_sorted;
  value_counts_idxmax := @mode;
  monthly_to_html := monthly_table;
  orders_to_html := order_table
|}.

End DemoLibrary.


(** C5. On the empty order list [analyze_orders] returns the "no orders"
    page at once: no statistic is computed, no call leaves the process, and
    nothing is raised, whatever the library and the world do. *)
Theorem analyze_orders_empty (L : Library) (w : World) (h : History) :
  analyze_orders w [] h
  = (Ok (Literal "<html><body><h1>No orders found to analyze</h1></body></html>"), h).
Proof. reflexivity. Qed.



(** ** Email sink *)

(** C9. When the API credential or the sender address is missing (or empty),
    the [try] block of [send_email] raises the configuration [ValueError]
    before any call is made; [send_email] logs it and returns [False], and
    nothing is handed to SendGrid. *)
Theorem send_email_missing_configuration
        (w : World) (to_email subject : string) (content : Document) (h : History) :
  truthy (environ w "DEREK_SENDGRID_API_KEY") = false \/
  truthy (environ w "DEREK_SENDER_EMAIL") = false ->
  exists msg,
    send_email_body w to_email subject content h = (Raise (ValueError msg), h) /\
    send_email w to_email subject content h
    = (Ok false, (h ++ [Log ERROR (EmailError to_email (ValueError msg))])%list).
Proof.
  intros H. unfold send_email, try_except, send_email_body.
  destruct (truthy (environ w "DEREK_SENDGRID_API_KEY")) eqn:Ek.
  - destruct H as [H|H]; [discriminate|]. rewrite H. simpl.
    eexists. split; reflexivity.
  - simpl. eexists. split; reflexivity.
Qed.

Lemma send_email_missing_configuration_witness :
  send_email (Demo.world (fun _ => true)) "user@example.com" "subject"
             (Literal no_orders_html) []
  = (Ok false,
     [Log ERROR
          (EmailError "user@example.com"
             (ValueError "DEREK_SENDGRID_API_KEY environment variable is not set"))]).
Proof.
  destruct (send_email_missing_configuration
              (Demo.world (fun _ => true)) "user@example.com" "subject"
              (Literal no_orders_html) [] (or_introl eq_refl))
    as (msg & Hb & Hs).
  injection Hb as <-. exact Hs.
Defined.

(** ** Cumulative total *)

Lemma year_loop_totals (orders : list Order) :
  forall idx year prev out,
    YearInference.year_loop idx year prev orders = Ok out ->
    map total out = map total orders.
Proof.
  induction orders as [|o orders IH]; intros idx year prev out; simpl.
  - now intros [= <-].
  - destruct (Py.split_ws (date o)) as [|m [|day [|x l]]]; try discriminate.
    destruct (YearInference.month_to_num (Py.title m)) as [n|e]; [|discriminate].
    simpl.
    destruct (YearInference.year_loop (S idx) _ n orders) as [rest|e] eqn:E;
      [|discriminate].
    simpl. intros [= <-]. simpl. f_equal. eapply IH. exact E.
Qed.

Lemma add_years_totals (orders out : list Order) (current_year : Z) :
  YearInference.add_years_to_orders orders current_year = Ok out ->
  map total out = map total orders.
Proof.
  unfold YearInference.add_years_to_orders.
  destruct orders as [|o orders]; [now intros [= <-]|].
  destruct (Py.split_ws (date o)) as [|tok toks]; [discriminate|].
  destruct (YearInference.month_to_num (Py.title tok)) as [n|e]; [|discriminate].
  unfold rbind. apply year_loop_totals.
Qed.

Lemma map_result_length {A B} (f : A -> Result B) (l : list A) :
  forall bs, map_result f l = Ok bs -> List.length bs = List.length l.
Proof.
  induction l as [|a l IH]; simpl; intros bs.
  - now intros [= <-].
  - destruct (f a) as [b|e]; [|discriminate]. simpl.
    destruct (map_result f l) as [bs'|e]; [|discriminate]. simpl.
    intros [= <-]. simpl. f_equal. now apply IH.
Qed.

Lemma map_result_through {A B C} (p : A -> B) (g : B -> Result C) (l l' : list A) :
  map p l = map p l' ->
  map_result (fun a => g (p a)) l = map_result (fun a => g (p a)) l'.
Proof.
  revert l'. induction l as [|a l IH]; intros [|a' l'] H; simpl in *;
    try discriminate; [reflexivity|].
  injection H as -> H. now rewrite (IH l' H).
Qed.












Section StatisticsFacts.
Context {L : Library}.



Lemma statistics_frame (orders : list Order) (st : Stats) :
  statistics orders = Ok st ->
  frame orders = Ok (df st) /\
  cum_value st = cumsum (map total_value (df st)) /\
  total_spent st = sum (map total_value (df st)).
Proof.
  unfold statistics.
  destruct (frame orders) as [rows|e]; [|discriminate].
  simpl. destruct rows as [|first rest]; [discriminate|].
  destruct (_hour_label _) as [label|e]; [|discriminate].
  simpl. intros [= <-]. simpl. repeat split.
Qed.

End StatisticsFacts.




(** ** Entry point *)

Section HandlerFacts.
Context {L : Library} {C : Codec}.
Variable w : World.

(** The inner [try ... except] never lets an exception through. *)
Lemma process_file_guarded_ok (source_bucket : json) (source_key user_email : string)
      (h : History) :
  (exists h',
      process_file w source_bucket source_key user_email h = (Ok tt, h') /\
      process_file_guarded w source_bucket source_key user_email h = (Ok tt, h'))
  \/
  (exists e h',
      process_file w source_bucket source_key user_email h = (Raise e, h') /\
      process_file_guarded w source_bucket source_key user_email h
      = (Ok tt, (h' ++ [error_log source_key e])%list)).
Proof.
  unfold process_file_guarded, try_except.
  destruct (process_file w source_bucket source_key user_email h) as [[[]|e] h'].
  - left. eauto.
  - right. exists e, h'. split; [reflexivity|]. now destruct e.
Qed.

Lemma process_record_envelope (record : json) (h : History) :
  match envelope record with
  | Raise e => process_record w record h = (Raise e, h)
  | Ok None => process_record w record h = (Ok tt, h)
  | Ok (Some _) => exists h', process_record w record h = (Ok tt, h')
  end.
Proof.
  unfold envelope, process_record, bind, lift, rbind.
  destruct (PyJson.get record "eventSource" JNull) as [src|e]; [|reflexivity].
  destruct (PyJson.is_str src "aws:s3"); [|reflexivity].
  destruct (PyJson.index record "s3") as [s3|e]; [|reflexivity].
  destruct (PyJson.index s3 "bucket") as [bucket|e]; [|reflexivity].
  destruct (PyJson.index bucket "name") as [source_bucket|e]; [|reflexivity].
  destruct (PyJson.index s3 "object") as [object|e]; [|reflexivity].
  destruct (PyJson.index object "key") as [raw_key|e]; [|reflexivity].
  destruct (PyJson.as_str raw_key) as [quoted_key|e]; [|reflexivity].
  unfold log at 1, call at 1.
  destruct (negb (Py.endswith (Py.lower (unquote_plus quoted_key)) ".json")).
  - unfold log, call. eauto.
  - unfold log at 1, call at 1.
    match goal with
    | |- context [process_file_guarded w ?b ?k ?u ?h0] =>
        destruct (process_file_guarded_ok b k u h0)
          as [(h' & _ & ->) | (e & h' & _ & ->)]
    end; eauto.
Qed.

Lemma process_records_ok (records : list json) :
  Forall (fun r => exists v, envelope r = Ok v) records ->
  forall h, exists h', process_records w records h = (Ok tt, h').
Proof.
  induction 1 as [|r records [v Hv] _ IH]; intros h; simpl.
  - unfold ret. eauto.
  - pose proof (process_record_envelope r h) as Hr. rewrite Hv in Hr.
    assert (Hok : exists h1, process_record w r h = (Ok tt, h1))
      by (destruct v; [exact Hr | eauto]).
    destruct Hok as (h1 & Hok). unfold bind. rewrite Hok. apply IH.
Qed.

Lemma handler_body_result (event : json) (h h' : History) (r : Response) :
  handler_body w event h = (Ok r, h') -> r = completed.
Proof.
  unfold handler_body, bind, log, call, lift, ret.
  destruct (PyJson.get event "Records" (JArr [])) as [records|e]; [|discriminate].
  destruct (PyJson.iter records) as [items|e]; [|discriminate].
  destruct (process_records w items _) as [[[]|e] h1]; [|discriminate].
  now intros [= <- _].
Qed.

End HandlerFacts.

(** C8. Whatever happens inside the inner [try] of a record (the storage
    read, the JSON parse, the shape check, the analysis or the send), that
    record ends normally, with the error logged, and the loop goes on with
    the records after it. [lambda_handler] returns 200 with the success body
    exactly when the outer [try] block completes, and 500 with the error
    exactly when an exception reaches the outer handler, as for a record
    without its "s3" field, which is read outside the inner [try]. *)
Theorem batch_independence (L : Library) (C : Codec) (w : World) :
  (forall source_bucket source_key user_email h,
      (exists h',
          process_file w source_bucket source_key user_email h = (Ok tt, h') /\
          process_file_guarded w source_bucket source_key user_email h = (Ok tt, h'))
      \/
      (exists e h',
          process_file w source_bucket source_key user_email h = (Raise e, h') /\
          process_file_guarded w source_bucket source_key user_email h
          = (Ok tt, (h' ++ [error_log source_key e])%list))) /\
  (forall record rest h v,
      envelope record = Ok v ->
      exists h',
        process_record w record h = (Ok tt, h') /\
        process_records w (record :: rest) h = process_records w rest h') /\
  (forall event h,
      (exists h',
          handler_body w event h = (Ok completed, h') /\
          lambda_handler w event h = (Ok completed, h'))
      \/
      (exists e h',
          handler_body w event h = (Raise e, h') /\
          lambda_handler w event h
          = (Ok (mkResponse 500 (ErrorBody e)),
             (h' ++ [Log ERROR (HandlerError e)])%list))) /\
  (forall fields records h,
      PyJson.assoc "Records" fields = Some (JArr records) ->
      Forall (fun r => exists v, envelope r = Ok v) records ->
      exists h', lambda_handler w (JObj fields) h = (Ok completed, h')) /\
  (forall h,
      let event := JObj [("Records", JArr [JObj [("eventSource", JStr "aws:s3")]])] in
      lambda_handler w event h
      = (Ok (mkResponse 500 (ErrorBody (KeyError "s3"))),
         (h ++ [Log INFO (ReceivedEvent event);
                Log ERROR (HandlerError (KeyError "s3"))])%list)).
Proof.
  split; [intros; apply process_file_guarded_ok|].
  split.
  { intros record rest h v Hv.
    pose proof (process_record_envelope w record h) as Hr. rewrite Hv in Hr.
    assert (Hok : exists h1, process_record w record h = (Ok tt, h1))
      by (destruct v; [exact Hr | eauto]).
    destruct Hok as (h1 & Hok). exists h1. split; [exact Hok|].
    simpl. unfold bind. now rewrite Hok. }
  split.
  { intros event h. unfold lambda_handler, try_except.
    destruct (handler_body w event h) as [[r|e] h'] eqn:E.
    - left. exists h'. rewrite (handler_body_result w _ _ _ _ E). split; reflexivity.
    - right. exists e, h'. split; reflexivity. }
  split.
  { intros fields records h Hf Hall.
    unfold lambda_handler, try_except, handler_body, bind, log, call, lift, ret.
    simpl PyJson.get. rewrite Hf. simpl PyJson.iter.
    destruct (process_records_ok w records Hall (h ++ [Log INFO (ReceivedEvent (JObj fields))])%list)
      as (h' & ->).
    eauto. }
  intros h event.
  unfold lambda_handler, try_except, handler_body, bind, log, call, lift, ret.
  simpl. now rewrite <- app_assoc.
Qed.

(** Two records whose files cannot be read: both are attempted, and the
    invocation still reports success. *)
Lemma batch_independence_witness :
  exists h',
    @lambda_handler DemoLibrary.library example_codec (Demo.world (fun _ => true))
                    example_event []
    = (Ok completed, h') /\
    In (Log ERROR (S3AccessError "orders/a@example.com/orders.json"
                                 (ClientError "NoSuchKey"))) h' /\
    In (Log ERROR (S3AccessError "orders/b@example.com/orders.json"
                                 (ClientError "NoSuchKey"))) h'.
Proof.
  destruct (batch_independence DemoLibrary.library example_codec (Demo.world (fun _ => true)))
    as (_ & _ & _ & H & _).
  destruct (H [("Records",
                JArr [ example_record "orders/a@example.com/orders.json";
                       example_record "orders/b@example.com/orders.json" ])]
              [ example_record "orders/a@example.com/orders.json";
                example_record "orders/b@example.com/orders.json" ]
              [] eq_refl) as (h' & Hh).
  - repeat constructor; eexists; reflexivity.
  - exists h'. split; [exact Hh|].
    vm_compute in Hh. injection Hh as <-.
    split; simpl; tauto.
Defined.


(** * Further properties *)

(** ** Year inference: errors and bounds *)

Section YearInferenceErrors.
Import YearInference.



End YearInferenceErrors.





Lemma month_title_fixed (m : string) (n : Z) :
  YearInference.month_to_num m = Ok n -> Py.title m = m.
Proof.
  unfold YearInference.month_to_num.
  destruct (YearInference.lookup m YearInference.month_table) as [k|] eqn:E;
    [|discriminate].
  intros _. apply lookup_month_cases in E.
  unfold YearInference.month_table, YearInference.month_names in E; simpl in E.
  repeat (destruct E as [E|E]; [injection E as <- _; reflexivity|]).
  contradiction.
Qed.

(** X3. [add_years_to_orders] cannot be applied twice: on its own result for
    a non-empty list it raises [ValueError], because every date now has three
    parts. *)
Theorem add_years_twice_raises
        (orders out : list Order) (parts : list (string * string * Z))
        (current_year again : Z) :
  orders <> [] ->
  Forall2 (fun o p => parse_fragment o = Some p) orders parts ->
  YearInference.add_years_to_orders orders current_year = Ok out ->
  YearInference.add_years_to_orders out again = Raise (ValueError "unpack").
Proof.
  intros Hne H Hout.
  rewrite (add_years_to_orders_dated orders parts current_year H) in Hout.
  injection Hout as <-.
  destruct H as [|o [[m day] n] orders ps Hp Hrest]; [contradiction|].
  destruct (parse_fragment_tokens _ _ _ _ Hp) as (Hm & Hday & Hn).
  simpl map. unfold inferred_years.
  set (year := if n <=? 6 then current_year else current_year - 1).
  change (dated (o :: orders) ((m, day, n) :: ps)
                (year :: running_years year n (map month_of ps)))
    with (set_date o (YearInference.format_date m day year)
            :: dated orders ps (running_years year n (map month_of ps))).
  set (first := set_date o (YearInference.format_date m day year)).
  set (tail := dated orders ps (running_years year n (map month_of ps))).
  assert (Hs : Py.split_ws (date first) = [m; day; Py.str_of_Z year]).
  { unfold first. simpl date. unfold YearInference.format_date.
    apply split_ws_three; [assumption | assumption | apply str_of_Z_token]. }
  cbv beta iota delta [YearInference.add_years_to_orders].
  rewrite Hs. cbv beta iota zeta.
  rewrite (month_title_fixed m n Hn), Hn. unfold rbind.
  cbn [YearInference.year_loop]. now rewrite Hs.
Qed.

Lemma add_years_twice_raises_witness :
  exists out,
    YearInference.add_years_to_orders example_orders 2025 = Ok out /\
    YearInference.add_years_to_orders out 2025 = Raise (ValueError "unpack").
Proof.
  eexists. split; [reflexivity|].
  apply (add_years_twice_raises example_orders _ example_parts 2025 2025).
  - discriminate.
  - repeat constructor.
  - reflexivity.
Defined.





(** ** Comparison selector: when the fallback is used *)








(** ** Statistics: what the frame and the KPIs keep *)

Lemma year_loop_fields (orders : list Order) :
  forall idx year prev out,
    YearInference.year_loop idx year prev orders = Ok out ->
    map kept_fields out = map kept_fields orders.
Proof.
  induction orders as [|o orders IH]; intros idx year prev out; simpl.
  - now intros [= <-].
  - destruct (Py.split_ws (date o)) as [|m [|day [|x l]]]; try discriminate.
    destruct (YearInference.month_to_num (Py.title m)) as [n|e]; [|discriminate].
    simpl.
    destruct (YearInference.year_loop (S idx) _ n orders) as [rest|e] eqn:E;
      [|discriminate].
    simpl. intros [= <-]. simpl. f_equal. eapply IH. exact E.
Qed.

Lemma add_years_fields (orders out : list Order) (current_year : Z) :
  YearInference.add_years_to_orders orders current_year = Ok out ->
  map kept_fields out = map kept_fields orders.
Proof.
  unfold YearInference.add_years_to_orders.
  destruct orders as [|o orders]; [now intros [= <-]|].
  destruct (Py.split_ws (date o)) as [|tok toks]; [discriminate|].
  destruct (YearInference.month_to_num (Py.title tok)) as [n|e]; [|discriminate].
  unfold rbind. apply year_loop_fields.
Qed.

Lemma rows_orders (dated : list Order) :
  forall (values : list Q) (stamps : list Z),
    List.length values = List.length dated ->
    List.length stamps = List.length dated ->
    map order
        (map (fun '(o, (v, t)) => mkRow o v t) (combine dated (combine values stamps)))
    = dated.
Proof.
  induction dated as [|o dated IH]; intros [|v values] [|t stamps] Hv Ht;
    simpl in *; try discriminate; [reflexivity|].
  f_equal. apply IH; congruence.
Qed.

Section StatisticsMore.
Context {L : Library}.

Lemma normalize_orders (dated : list Order) (rows : list Row) :
  normalize dated = Ok rows -> map order rows = dated.
Proof.
  unfold normalize.
  match goal with
  | |- context [map_result ?f dated] =>
      destruct (map_result f dated) as [values|e] eqn:Ev; [|discriminate]
  end.
  unfold rbind at 1.
  match goal with
  | |- context [map_result ?f dated] =>
      destruct (map_result f dated) as [stamps|e] eqn:Es; [|discriminate]
  end.
  unfold rbind. intros [= <-].
  apply rows_orders; eapply map_result_length; eassumption.
Qed.

Lemma frame_inv (orders : list Order) (rows : list Row) :
  frame orders = Ok rows ->
  exists dated rs,
    YearInference.add_years_to_orders orders 2025 = Ok dated /\
    normalize dated = Ok rs /\
    rows = sort_values ts rs.
Proof.
  unfold frame.
  destruct (YearInference.add_years_to_orders orders 2025) as [dated|e];
    [|discriminate].
  simpl. destruct (normalize dated) as [rs|e] eqn:En; [|discriminate].
  simpl. intros [= <-]. exists dated, rs. repeat split. exact En.
Qed.

(** The rows of the frame carry the orders of the input, rearranged. *)
Lemma frame_fields (orders : list Order) (rows : list Row) :
  frame orders = Ok rows ->
  Permutation (map (fun r => kept_fields (order r)) rows) (map kept_fields orders).
Proof.
  intros H. destruct (frame_inv _ _ H) as (dated & rs & Hd & Hn & ->).
  rewrite <- (add_years_fields _ _ _ Hd), <- (normalize_orders _ _ Hn).
  rewrite (map_map order kept_fields rs).
  apply Permutation_map, sort_values_perm.
Qed.

Lemma statistics_fields (orders : list Order) (st : Stats) :
  statistics orders = Ok st ->
  exists first rest,
    df st = first :: rest /\
    total_orders st = List.length (df st) /\
    canceled_orders st = List.length (filter (fun r => canceled (order r)) (df st)) /\
    largest_order_row st = idxmax_from first rest /\
    monthly_spend st = monthly (df st) /\
    avg_order_value st
    = (sum (map total_value (df st)) / inject_Z (Z.of_nat (List.length (df st))))%Q.
Proof.
  unfold statistics.
  destruct (frame orders) as [rows|e]; [|discriminate].
  simpl. destruct rows as [|first rest]; [discriminate|].
  destruct (_hour_label _) as [label|e]; [|discriminate].
  simpl. intros [= <-]. simpl. exists first, rest. repeat split.
Qed.

End StatisticsMore.

Lemma filter_length_map {A B} (h : A -> B) (g : B -> bool) (l : list A) :
  List.length (filter (fun a => g (h a)) l) = List.length (filter g (map h l)).
Proof.
  induction l as [|a l IH]; simpl; [reflexivity|].
  destruct (g (h a)); simpl; now rewrite IH.
Qed.

Lemma filter_length_perm {A} (g : A -> bool) (l1 l2 : list A) :
  Permutation l1 l2 -> List.length (filter g l1) = List.length (filter g l2).
Proof.
  induction 1 as [|x la lb _ IH|x y la|la lb lc _ IH1 _ IH2]; simpl.
  - reflexivity.
  - destruct (g x); simpl; now rewrite IH.
  - destruct (g x), (g y); reflexivity.
  - congruence.
Qed.

Lemma cumsum_length (l : list Q) : List.length (cumsum l) = List.length l.
Proof.
  destruct l as [|x l]; [reflexivity|].
  simpl. f_equal. revert x.
  induction l as [|y l IH]; intros x; simpl; [reflexivity|now rewrite IH].
Qed.

(** X6. In the statistics of an order list, the frame holds the input
    orders rearranged, each with its restaurant, time, total and canceled
    flag unchanged; the order count is the number of input orders, the
    cumulative column has one entry per order, and the canceled count is the
    number of input orders flagged as canceled. *)
Theorem statistics_keep_orders (L : Library) (orders : list Order) (st : Stats) :
  statistics orders = Ok st ->
  Permutation (map (fun r => kept_fields (order r)) (df st)) (map kept_fields orders) /\
  total_orders st = List.length orders /\
  List.length (cum_value st) = List.length orders /\
  canceled_orders st = List.length (filter canceled orders) /\
  (canceled_orders st <= total_orders st)%nat.
Proof.
  intros Hst.
  destruct (statistics_frame orders st Hst) as (Hf & Hcum & _).
  destruct (statistics_fields orders st Hst) as (first & rest & _ & Hn & Hc & _).
  pose proof (frame_fields orders (df st) Hf) as Hperm.
  assert (Hlen : List.length (df st) = List.length orders).
  { apply Permutation_length in Hperm. now rewrite !length_map in Hperm. }
  assert (Hcanceled : canceled_orders st = List.length (filter canceled orders)).
  { rewrite Hc.
    change (List.length (filter canceled orders))
      with (List.length (filter (fun o => snd (kept_fields o)) orders)).
    change (fun r : Row => canceled (order r))
      with (fun r : Row => snd (kept_fields (order r))).
    rewrite (filter_length_map (fun r => kept_fields (order r)) snd (df st)).
    rewrite (filter_length_perm snd _ _ Hperm).
    now rewrite <- (filter_length_map kept_fields snd orders). }
  split; [exact Hperm|].
  split; [congruence|].
  split; [now rewrite Hcum, cumsum_length, length_map|].
  split; [exact Hcanceled|].
  rewrite Hcanceled, Hn, Hlen. apply filter_length_le.
Qed.

Lemma statistics_keep_orders_witness :
  exists st,
    @statistics DemoLibrary.library Demo.two_orders = Ok st /\
    total_orders st = 2%nat /\ canceled_orders st = 0%nat.
Proof.
  destruct (@statistics DemoLibrary.library Demo.two_orders) as [st|e] eqn:E;
    [|vm_compute in E; discriminate].
  exists st.
  destruct (statistics_keep_orders DemoLibrary.library Demo.two_orders st E)
    as (_ & Hn & _ & Hc & _).
  split; [reflexivity|]. split; assumption.
Defined.

(** [idxmax_from] returns the first row of largest value: the rows before it
    are strictly smaller, the rows after it are not larger. [pre] and [mid]
    are the rows already visited, before and after the current best. *)
Lemma idxmax_from_first (l : list Row) :
  forall (pre : list Row) (best : Row) (mid : list Row),
    (forall x, In x pre -> (total_value x < total_value best)%Q) ->
    (forall x, In x mid -> (total_value x <= total_value best)%Q) ->
    exists l1 l2,
      (pre ++ best :: mid ++ l)%list = (l1 ++ idxmax_from best l :: l2)%list /\
      (forall x, In x l1 -> (total_value x < total_value (idxmax_from best l))%Q) /\
      (forall x, In x l2 -> (total_value x <= total_value (idxmax_from best l))%Q).
Proof.
  induction l as [|r l IH]; intros pre best mid Hpre Hmid; simpl idxmax_from.
  - exists pre, mid. rewrite app_nil_r. repeat split; assumption.
  - destruct (Fmt.Qlt_bool (total_value best) (total_value r)) eqn:E.
    + apply Qlt_bool_iff in E.
      destruct (IH (pre ++ best :: mid)%list r []) as (l1 & l2 & Heq & H1 & H2).
      * intros x Hx. apply in_app_or in Hx as [Hx|[<-|Hx]].
        -- eapply Qlt_trans; [apply Hpre, Hx | exact E].
        -- exact E.
        -- eapply Qle_lt_trans; [apply Hmid, Hx | exact E].
      * intros x [].
      * exists l1, l2. split; [|split; assumption].
        rewrite <- Heq. rewrite <- !app_assoc. simpl. reflexivity.
    + apply Qlt_bool_false in E.
      destruct (IH pre best (mid ++ [r])%list) as (l1 & l2 & Heq & H1 & H2).
      * exact Hpre.
      * intros x Hx. apply in_app_or in Hx as [Hx|[<-|[]]]; [now apply Hmid | exact E].
      * exists l1, l2. split; [|split; assumption].
        rewrite <- Heq. rewrite <- !app_assoc. reflexivity.
Qed.

(** X7. The "largest order" of the statistics is a row of the frame whose
    total is the largest; when several orders share the largest total it is
    the earliest of them in the time-sorted frame. *)
Theorem largest_order_is_first_maximum (L : Library) (orders : list Order) (st : Stats) :
  statistics orders = Ok st ->
  exists earlier later,
    df st = (earlier ++ largest_order_row st :: later)%list /\
    (forall r, In r earlier ->
               (total_value r < total_value (largest_order_row st))%Q) /\
    (forall r, In r later ->
               (total_value r <= total_value (largest_order_row st))%Q).
Proof.
  intros Hst.
  destruct (statistics_fields orders st Hst) as (first & rest & Hdf & _ & _ & Hl & _).
  rewrite Hdf, Hl.
  destruct (idxmax_from_first rest [] first []) as (l1 & l2 & Heq & H1 & H2);
    try (intros x []).
  exists l1, l2. split; [exact Heq | split; assumption].
Qed.

Lemma largest_order_is_first_maximum_witness :
  exists st,
    @statistics DemoLibrary.library Demo.two_orders = Ok st /\
    restaurantName (order (largest_order_row st)) = "A" /\
    In (largest_order_row st) (df st).
Proof.
  destruct (@statistics DemoLibrary.library Demo.two_orders) as [st|e] eqn:E;
    [|vm_compute in E; discriminate].
  exists st.
  destruct (largest_order_is_first_maximum DemoLibrary.library Demo.two_orders st E)
    as (earlier & later & Hdf & _).
  split; [reflexivity|]. split.
  - vm_compute in E. injection E as <-. reflexivity.
  - rewrite Hdf. apply in_elt.
Defined.

(** ** Monthly buckets *)









(** ** Calls added by the pipeline *)

Section Runs.

Lemma runs_ret {A} (P : History -> Prop) (post : A -> Prop) (a : A) :
  P [] -> post a -> runs P post (ret a).
Proof.
  intros H Ha h. exists []. rewrite app_nil_r. repeat split; auto.
  simpl. now intros ? [= <-].
Qed.

Lemma runs_raise {A} (P : History -> Prop) (post : A -> Prop) (e : exn) :
  P [] -> runs P post (raise e).
Proof.
  intros H h. exists []. rewrite app_nil_r. repeat split; auto.
  simpl. discriminate.
Qed.

Lemma runs_lift {A} (P : History -> Prop) (r : Result A) :
  P [] -> runs P (fun a => r = Ok a) (lift r).
Proof. intros H h. exists []. rewrite app_nil_r. repeat split; auto. Qed.

Lemma runs_call {A} (P : History -> Prop) (c : Call) (respond : History -> Result A) :
  P [c] -> runs P (fun _ => True) (call c respond).
Proof. intros H h. exists [c]. repeat split; auto. Qed.

Lemma runs_log (P : History -> Prop) (level : LogLevel) (msg : LogMsg) :
  P [Log level msg] -> runs P (fun _ => True) (log level msg).
Proof. apply runs_call. Qed.

Lemma runs_weaken {A} (P Q : History -> Prop) (post post' : A -> Prop) (m : M A) :
  (forall l, P l -> Q l) -> (forall a, post a -> post' a) ->
  runs P post m -> runs Q post' m.
Proof.
  intros HPQ Hpost Hm h. destruct (Hm h) as (l & Hl & HP & Ha).
  exists l. repeat split; auto.
Qed.

Lemma runs_bind {A B} (P Q R : History -> Prop)
      (post : A -> Prop) (post' : B -> Prop) (m : M A) (k : A -> M B) :
  runs P post m -> (forall a, post a -> runs Q post' (k a)) ->
  (forall l1 l2, P l1 -> Q l2 -> R (l1 ++ l2)%list) ->
  (forall l1, P l1 -> R l1) ->
  runs R post' (bind m k).
Proof.
  intros Hm Hk Happ Hstop h. unfold bind.
  destruct (Hm h) as (l1 & Hl1 & HP & Ha).
  destruct (m h) as [[a|e] h1]; simpl in Hl1, Ha; subst h1.
  - destruct (Hk a (Ha a eq_refl) (h ++ l1)%list) as (l2 & Hl2 & HQ & Hb).
    exists (l1 ++ l2)%list. rewrite Hl2, app_assoc. auto.
  - exists l1. repeat split; auto. simpl. discriminate.
Qed.

Lemma runs_try {A} (P Q R : History -> Prop) (post : A -> Prop)
      (m : M A) (handler : exn -> M A) :
  runs P post m -> (forall e, runs Q post (handler e)) ->
  (forall l1 l2, P l1 -> Q l2 -> R (l1 ++ l2)%list) ->
  (forall l1, P l1 -> R l1) ->
  runs R post (try_except m handler).
Proof.
  intros Hm Hk Happ Hstop h. unfold try_except.
  destruct (Hm h) as (l1 & Hl1 & HP & Ha).
  destruct (m h) as [[a|e] h1]; simpl in Hl1, Ha; subst h1.
  - exists l1. auto.
  - destruct (Hk e (h ++ l1)%list) as (l2 & Hl2 & HQ & Hb).
    exists (l1 ++ l2)%list. rewrite Hl2, app_assoc. auto.
Qed.



End Runs.

Section AnalysisAborts.
Context {L : Library}.

Lemma normalize_raises (dated : list Order) (e : exn) :
  map_result parse_total dated = Raise e -> normalize dated = Raise e.
Proof.
  unfold normalize.
  change (fun o : Order => to_numeric (Py.remove_char "$" (total o))) with parse_total.
  now intros ->.
Qed.

Lemma parse_total_through (dated orders : list Order) :
  map total dated = map total orders ->
  map_result parse_total dated = map_result parse_total orders.
Proof.
  exact (map_result_through total (fun t => to_numeric (Py.remove_char "$" t))
           dated orders).
Qed.

Lemma statistics_raises (orders : list Order) (e : exn) :
  YearInference.add_years_to_orders orders 2025 = Raise e \/
  (exists dated,
      YearInference.add_years_to_orders orders 2025 = Ok dated /\
      map_result parse_total orders = Raise e) ->
  statistics orders = Raise e.
Proof.
  unfold statistics, frame.
  intros [H | (dated & Hd & Hp)].
  - now rewrite H.
  - rewrite Hd. unfold rbind at 2.
    rewrite (normalize_raises dated e); [reflexivity|].
    rewrite <- Hp. apply parse_total_through.
    eapply add_years_totals; eassumption.
Qed.

End AnalysisAborts.

(** X9. When the dates of a non-empty order list cannot be dated, or a
    total does not parse as a number, [analyze_orders] raises that exception
    before any chart is rendered or stored: the history of calls is
    unchanged. *)
Theorem analysis_aborts_before_publishing
        (L : Library) (w : World) (orders : list Order) (e : exn) (h : History) :
  orders <> [] ->
  YearInference.add_years_to_orders orders 2025 = Raise e \/
  (exists dated,
      YearInference.add_years_to_orders orders 2025 = Ok dated /\
      map_result parse_total orders = Raise e) ->
  analyze_orders w orders h = (Raise e, h).
Proof.
  intros Hne H.
  destruct orders as [|o orders]; [contradiction|].
  unfold analyze_orders, bind, lift.
  now rewrite (statistics_raises (o :: orders) e H).
Qed.

Lemma analysis_aborts_before_publishing_witness :
  @analyze_orders DemoLibrary.library (Demo.world (fun _ => true))
                  [mkOrder "A" "Jun 1" "6:00 PM" "twenty" false] []
  = (Raise (ValueError "not a number"), []).
Proof.
  apply (analysis_aborts_before_publishing DemoLibrary.library).
  - discriminate.
  - right. eexists. split; reflexivity.
Defined.

Section ChartCalls.
Context {L : Library}.
Variable w : World.

Lemma upload_chart_calls (fig : Figure) (chart_name timestamp : string) (h : History) :
  exists l,
    snd (upload_chart_to_s3 w fig chart_name timestamp h) = (h ++ l)%list /\
    Forall (chart_call w timestamp chart_name) l /\
    (count is_put l <= 1)%nat.
Proof.
  unfold upload_chart_to_s3, try_except, upload_chart_body, bind, call, log, ret.
  destruct (savefig w h fig) as [body|e].
  - destruct (put_object w _ _ _ body "image/png") as [[]|e];
      simpl; repeat rewrite <- app_assoc; simpl;
      eexists; (split; [reflexivity|]);
      (split; [repeat constructor|cbv; lia]).
  - simpl. repeat rewrite <- app_assoc. simpl.
    eexists. split; [reflexivity|].
    split; [repeat constructor|cbv; lia].
Qed.

Lemma upload_chart_returns (fig : Figure) (chart_name timestamp : string) (h : History) :
  exists url, fst (upload_chart_to_s3 w fig chart_name timestamp h) = Ok url.
Proof.
  destruct (upload_chart_to_s3_total w fig chart_name timestamp h)
    as [(url & h' & _ & _ & ->) | (e & h' & _ & ->)]; simpl; eauto.
Qed.

End ChartCalls.

(** X10. Whatever the storage service answers, [analyze_orders] only
    renders, logs and stores: it never reads an object and never sends
    mail, and it stores at most one object per chart, each of type
    [image/png], in the charts bucket, under the key of that chart for the
    timestamp taken at the start. *)
Theorem analyze_orders_calls
        (L : Library) (w : World) (orders : list Order) (h : History) :
  exists spending cumulative,
    snd (analyze_orders w orders h) = (h ++ spending ++ cumulative)%list /\
    Forall (chart_call w (now_strftime w h) "spending") spending /\
    Forall (chart_call w (now_strftime w h) "cumulative") cumulative /\
    (count is_put spending <= 1)%nat /\
    (count is_put cumulative <= 1)%nat.
Proof.
  assert (Hnone : exists spending cumulative : History,
             h = (h ++ spending ++ cumulative)%list /\
             Forall (chart_call w (now_strftime w h) "spending") spending /\
             Forall (chart_call w (now_strftime w h) "cumulative") cumulative /\
             (count is_put spending <= 1)%nat /\
             (count is_put cumulative <= 1)%nat).
  { exists [], []. rewrite app_nil_r. repeat split; auto. }
  destruct orders as [|o orders]; [exact Hnone|].
  unfold analyze_orders, bind at 1, lift.
  destruct (statistics (o :: orders)) as [st|e]; [|exact Hnone].
  unfold bind at 1, now. unfold bind at 1.
  destruct (upload_chart_calls w (SpendingFigure (monthly_spend st)) "spending"
              (now_strftime w h) h) as (l1 & Hl1 & Hc1 & Hn1).
  destruct (upload_chart_returns w (SpendingFigure (monthly_spend st)) "spending"
              (now_strftime w h) h) as (url1 & Hu1).
  destruct (upload_chart_to_s3 w (SpendingFigure (monthly_spend st)) "spending"
              (now_strftime w h) h) as [r1 h1].
  simpl in Hl1, Hu1. subst r1 h1.
  unfold bind at 1.
  destruct (upload_chart_calls w
              (CumulativeFigure (combine (map ts (df st)) (cum_value st)))
              "cumulative" (now_strftime w h) (h ++ l1)%list) as (l2 & Hl2 & Hc2 & Hn2).
  destruct (upload_chart_returns w
              (CumulativeFigure (combine (map ts (df st)) (cum_value st)))
              "cumulative" (now_strftime w h) (h ++ l1)%list) as (url2 & Hu2).
  destruct (upload_chart_to_s3 w
              (CumulativeFigure (combine (map ts (df st)) (cum_value st)))
              "cumulative" (now_strftime w h) (h ++ l1)%list) as [r2 h2].
  simpl in Hl2, Hu2. subst r2 h2.
  exists l1, l2. unfold ret. simpl. rewrite app_assoc. auto.
Qed.

Lemma substring_app_skip (a b : string) (n k : nat) :
  substring (String.length a + n) k (a ++ b) = substring n k b.
Proof. induction a as [|c a IH]; simpl; auto. Qed.

Lemma length_app_string (a b : string) :
  String.length (a ++ b) = (String.length a + String.length b)%nat.
Proof. induction a as [|c a IH]; simpl; auto. Qed.

Lemma endswith_app (a b suffix : string) :
  (String.length suffix <= String.length b)%nat ->
  Py.endswith (a ++ b) suffix = Py.endswith b suffix.
Proof.
  intros Hk. unfold Py.endswith. rewrite length_app_string.
  replace (String.length a + String.length b - String.length suffix)%nat
    with (String.length a + (String.length b - String.length suffix))%nat by lia.
  rewrite substring_app_skip.
  replace (String.length suffix <=? String.length a + String.length b)%nat with true
    by (symmetry; apply Nat.leb_le; lia).
  replace (String.length suffix <=? String.length b)%nat with true
    by (symmetry; apply Nat.leb_le; lia).
  reflexivity.
Qed.

Lemma lower_app (a b : string) : Py.lower (a ++ b) = Py.lower a ++ Py.lower b.
Proof. induction a as [|c a IH]; simpl; congruence. Qed.

Lemma append_inj_l (a b c : string) : a ++ b = a ++ c -> b = c.
Proof. induction a as [|x a IH]; simpl; [auto|]. intros [= H]. auto. Qed.

Lemma chart_key_suffix (timestamp chart_name : string) :
  chart_key timestamp chart_name
  = ("charts/" ++ timestamp ++ "_" ++ chart_name) ++ "_chart.png".
Proof.
  unfold chart_key.
  change ("charts/" ++ timestamp ++ "_" ++ chart_name ++ "_chart.png")
    with ("charts/" ++ (timestamp ++ ("_" ++ (chart_name ++ "_chart.png")))).
  change ("charts/" ++ timestamp ++ "_" ++ chart_name)
    with ("charts/" ++ (timestamp ++ ("_" ++ chart_name))).
  now rewrite !append_assoc.
Qed.

(** X11. The keys under which the two charts are stored differ, whatever
    the timestamp; and no chart key, whatever the timestamp and chart name,
    passes the key filter of the bucket notification or the handler's own
    [.json] test, so a stored chart is never taken for an orders file. *)
Theorem chart_keys_are_not_order_files (timestamp chart_name : string) :
  chart_key timestamp "spending" <> chart_key timestamp "cumulative" /\
  notification_filter (chart_key timestamp chart_name) = false /\
  Py.endswith (Py.lower (chart_key timestamp chart_name)) ".json" = false.
Proof.
  split; [|split].
  - unfold chart_key. intros H.
    change ("charts/" ++ timestamp ++ "_" ++ "spending" ++ "_chart.png")
      with ("charts/" ++ (timestamp ++ "_spending_chart.png")) in H.
    change ("charts/" ++ timestamp ++ "_" ++ "cumulative" ++ "_chart.png")
      with ("charts/" ++ (timestamp ++ "_cumulative_chart.png")) in H.
    apply append_inj_l, append_inj_l in H. discriminate.
  - reflexivity.
  - rewrite chart_key_suffix, lower_app.
    rewrite endswith_app; [reflexivity|simpl; lia].
Qed.

(** ** The email sink *)

Section SendFacts.
Variable w : World.

Lemma truthy_value (o : option string) :
  truthy o = true -> exists s, o = Some s /\ s <> "".
Proof.
  destruct o as [[|c s]|]; simpl; try discriminate.
  intros _. eexists. split; [reflexivity | discriminate].
Qed.

Lemma truthy_some (s : string) : s <> "" -> truthy (Some s) = true.
Proof. destruct s; [contradiction | reflexivity]. Qed.

End SendFacts.

(** X12. [send_email] never raises and contacts SendGrid at most once. It
    returns [True] exactly when both environment variables are set and not
    empty and SendGrid answers the message, built from the sender, the
    recipient, the subject and the content, with a status from 200 to 299;
    it reads and stores no object. *)
Theorem send_email_outcome
        (w : World) (to_email subject : string) (content : Document) (h : History) :
  exists sent l,
    send_email w to_email subject content h = (Ok sent, (h ++ l)%list) /\
    (count is_send l <= 1)%nat /\
    count is_get l = 0%nat /\
    count is_put l = 0%nat /\
    (sent = true <->
     exists key sender status,
       environ w "DEREK_SENDGRID_API_KEY" = Some key /\ key <> "" /\
       environ w "DEREK_SENDER_EMAIL" = Some sender /\ sender <> "" /\
       sendgrid_send w h key (mkMail sender to_email subject content) = Ok status /\
       200 <= status < 300).
Proof.
  unfold send_email, try_except, send_email_body. cbv zeta.
  destruct (truthy (environ w "DEREK_SENDGRID_API_KEY")) eqn:Ek; simpl negb; cbv iota.
  - destruct (truthy (environ w "DEREK_SENDER_EMAIL")) eqn:Es; simpl negb; cbv iota.
    + destruct (truthy_value _ Ek) as (key & Hk & Hkne).
      destruct (truthy_value _ Es) as (sender & Hs & Hsne).
      rewrite Hk, Hs.
      unfold bind, call, log, ret. simpl.
      destruct (sendgrid_send w h key (mkMail sender to_email subject content))
        as [status|e] eqn:Er.
      * simpl. eexists _, _. rewrite <- app_assoc. simpl.
        split; [reflexivity|]. repeat split; try (cbv; lia).
        -- intros Hb. apply andb_prop in Hb as [H1 H2].
           apply Z.leb_le in H1. apply Z.ltb_lt in H2.
           exists key, sender, status. repeat split; auto.
        -- intros (k' & s' & st' & [= <-] & _ & [= <-] & _ & Hst & H1 & H2).
           rewrite Er in Hst. injection Hst as <-.
           apply andb_true_intro. split; [now apply Z.leb_le | now apply Z.ltb_lt].
      * simpl. eexists _, _. rewrite <- app_assoc. simpl.
        split; [reflexivity|]. repeat split; try (cbv; lia); try discriminate.
        intros (k' & s' & st' & [= <-] & _ & [= <-] & _ & Hst & _).
        rewrite Er in Hst. discriminate.
    + unfold raise, bind, log, call, ret. eexists _, _.
      split; [reflexivity|]. repeat split; try (cbv; lia); try discriminate.
      intros (k' & s' & st' & _ & _ & Hs & Hsne & _).
      rewrite Hs, (truthy_some s' Hsne) in Es. discriminate.
  - unfold raise, bind, log, call, ret. eexists _, _.
    split; [reflexivity|]. repeat split; try (cbv; lia); try discriminate.
    intros (k' & s' & st' & Hk & Hkne & _).
    rewrite Hk, (truthy_some k' Hkne) in Ek. discriminate.
Qed.

(** ** Keys of the documented form *)

Lemma split_on_from_app (sep : ascii) (a rest : string) :
  Py.contains sep a = false ->
  forall cur,
    Py.split_on_from sep cur (a ++ String sep rest)
    = (cur ++ a) :: Py.split_on_from sep "" rest.
Proof.
  induction a as [|c a IH]; simpl; intros Ha cur.
  - now rewrite Ascii.eqb_refl, append_empty_r.
  - apply orb_false_elim in Ha as [Hc Ha]. rewrite Hc.
    rewrite (IH Ha). unfold Py.snoc. now rewrite append_assoc.
Qed.

(** X13. For a key of the documented form, a folder, the user's email and a
    file name separated by '/', [extract_user_email_from_key] returns the
    email, provided the email contains '@' and '.' and no '/', and the folder
    is not itself taken for an email. *)
Theorem documented_key_gives_email (folder email file : string) :
  Py.contains "/" folder = false ->
  Py.contains "/" email = false ->
  looks_like_email folder = false ->
  looks_like_email email = true ->
  extract_user_email_from_key (folder ++ "/" ++ email ++ "/" ++ file) = email.
Proof.
  intros Hf He Hnf Hem.
  unfold extract_user_email_from_key, Py.split_on.
  change (folder ++ "/" ++ email ++ "/" ++ file)
    with (folder ++ String "/" (email ++ String "/" file)).
  rewrite (split_on_from_app "/" folder _ Hf).
  rewrite (split_on_from_app "/" email _ He).
  simpl append. simpl find. now rewrite Hnf, Hem.
Qed.

Lemma documented_key_gives_email_witness :
  extract_user_email_from_key "orders/ann@example.com/orders.json" = "ann@example.com".
Proof.
  apply (documented_key_gives_email "orders" "ann@example.com" "orders.json");
    reflexivity.
Defined.

(** ** Calls of the entry point *)

Lemma count_app (f : Call -> bool) (l1 l2 : History) :
  count f (l1 ++ l2)%list = (count f l1 + count f l2)%nat.
Proof. unfold count. now rewrite filter_app, length_app. Qed.

Lemma within_app (a b c a' b' c' : nat) (l1 l2 : History) :
  within a b c l1 -> within a' b' c' l2 ->
  within (a + a') (b + b') (c + c') (l1 ++ l2)%list.
Proof.
  unfold within. rewrite !count_app. lia.
Qed.

Lemma within_mono (a b c a' b' c' : nat) (l : History) :
  (a <= a')%nat -> (b <= b')%nat -> (c <= c')%nat ->
  within a b c l -> within a' b' c' l.
Proof. unfold within. lia. Qed.

Lemma runs_bind_within {A B} (a b c a' b' c' : nat)
      (post : A -> Prop) (post' : B -> Prop) (m : M A) (k : A -> M B) :
  runs (within a b c) post m ->
  (forall x, post x -> runs (within a' b' c') post' (k x)) ->
  runs (within (a + a') (b + b') (c + c')) post' (bind m k).
Proof.
  intros Hm Hk.
  apply (runs_bind (within a b c) (within a' b' c') _ post); auto.
  - intros l1 l2. apply within_app.
  - intros l1. apply within_mono; lia.
Qed.

Lemma runs_bind_silent {A B} (a b c : nat)
      (post : A -> Prop) (post' : B -> Prop) (m : M A) (k : A -> M B) :
  runs (within 0 0 0) post m ->
  (forall x, post x -> runs (within a b c) post' (k x)) ->
  runs (within a b c) post' (bind m k).
Proof. exact (runs_bind_within 0 0 0 a b c post post' m k). Qed.

Lemma runs_try_within {A} (a b c a' b' c' : nat)
      (post : A -> Prop) (m : M A) (handler : exn -> M A) :
  runs (within a b c) post m ->
  (forall e, runs (within a' b' c') post (handler e)) ->
  runs (within (a + a') (b + b') (c + c')) post (try_except m handler).
Proof.
  intros Hm Hk.
  apply (runs_try (within a b c) (within a' b' c')); auto.
  - intros l1 l2. apply within_app.
  - intros l1. apply within_mono; lia.
Qed.

Ltac silent := unfold within, count; simpl; lia.

Lemma chart_calls_silent (w : World) (timestamp chart_name : string) (l : History) :
  Forall (chart_call w timestamp chart_name) l ->
  count is_get l = 0%nat /\ count is_send l = 0%nat.
Proof.
  induction 1 as [|c l Hc _ IH]; [split; reflexivity|].
  destruct c; simpl in Hc; try contradiction; exact IH.
Qed.


Section EntryPointCalls.
Context {L : Library} {C : Codec}.
Variable w : World.

Lemma upload_chart_runs (fig : Figure) (chart_name timestamp : string) :
  runs (within 0 0 1) (fun _ => True) (upload_chart_to_s3 w fig chart_name timestamp).
Proof.
  intros h.
  destruct (upload_chart_calls w fig chart_name timestamp h) as (l & Hl & Hc & Hn).
  destruct (chart_calls_silent _ _ _ _ Hc) as [Hg Hs].
  exists l. unfold within. repeat split; auto; lia.
Qed.

Lemma analyze_orders_runs (orders : list Order) :
  runs (within 0 0 2)
       (fun d => orders <> [] -> exists report, d = Summary report)
       (analyze_orders w orders).
Proof.
  destruct orders as [|o orders].
  - apply runs_ret; [silent | intros H; now contradiction H].
  - unfold analyze_orders.
    apply (runs_bind_within 0 0 0 0 0 2 (fun st => statistics (o :: orders) = Ok st));
      [apply runs_lift; silent|]. intros st _.
    apply (runs_bind_within 0 0 0 0 0 2 (fun _ => True)).
    { intros h. exists []. unfold now. simpl. rewrite app_nil_r.
      repeat split; silent. }
    intros timestamp _.
    apply (runs_bind_within 0 0 1 0 0 1 (fun _ => True));
      [apply upload_chart_runs|]. intros spending_chart_url _.
    apply (runs_bind_within 0 0 1 0 0 0 (fun _ => True));
      [apply upload_chart_runs|]. intros cumulative_chart_url _.
    apply runs_ret; [silent|]. intros _. eexists. reflexivity.
Qed.

Lemma send_email_runs (to_email subject : string) (content : Document) :
  runs (fun l => within 0 1 0 l /\ Forall (sent_mail w to_email subject content) l)
       (fun _ => True)
       (send_email w to_email subject content).
Proof.
  intros h. unfold send_email, try_except, send_email_body. cbv zeta.
  destruct (truthy (environ w "DEREK_SENDGRID_API_KEY")) eqn:Ek; simpl negb; cbv iota.
  - destruct (truthy (environ w "DEREK_SENDER_EMAIL")) eqn:Es; simpl negb; cbv iota.
    + destruct (truthy_value _ Ek) as (key & Hk & Hkne).
      destruct (truthy_value _ Es) as (sender & Hs & Hsne).
      assert (Hsent : sent_mail w to_email subject content
                        (SendGridSend key (mkMail sender to_email subject content))).
      { simpl. split; [exact Hk|]. exists sender. split; [exact Hs | reflexivity]. }
      rewrite Hk, Hs.
      unfold bind, call, log, ret. simpl.
      destruct (sendgrid_send w h key (mkMail sender to_email subject content))
        as [status|e]; simpl; rewrite <- app_assoc; simpl;
        eexists; (split; [reflexivity|]);
        (split; [split; [silent|]|auto]);
        (constructor; [exact Hsent|]); (constructor; [exact I | constructor]).
    + unfold raise, bind, log, call, ret. eexists.
      split; [reflexivity|]. split; [split; [silent|]|auto].
      constructor; [exact I | constructor].
  - unfold raise, bind, log, call, ret. eexists.
    split; [reflexivity|]. split; [split; [silent|]|auto].
    constructor; [exact I | constructor].
Qed.

Lemma process_file_runs (source_bucket : json) (source_key user_email : string) :
  runs (within 1 1 2) (fun _ => True)
       (process_file w source_bucket source_key user_email).
Proof.
  unfold process_file.
  apply (runs_bind_within 1 0 0 0 1 2 (fun _ => True));
    [apply runs_call; silent|]. intros file_content _.
  apply (runs_bind_within 0 0 0 0 1 2 (fun d => json_loads file_content = Ok d));
    [apply runs_lift; silent|]. intros orders_data _.
  cbv zeta.
  match goal with
  | |- runs _ _ (match ?sel with _ => _ end) => generalize sel
  end.
  intros [orders|]; [|apply runs_log; silent].
  apply (runs_bind_within 0 0 0 0 1 2 (fun n => PyJson.len orders = Ok n));
    [apply runs_lift; silent|]. intros n _.
  apply (runs_bind_within 0 0 0 0 1 2 (fun _ => True));
    [apply runs_log; silent|]. intros _ _.
  destruct (n =? 0)%nat; [apply runs_log; silent|].
  apply (runs_bind_within 0 0 0 0 1 2 (fun ol => orders_of_json orders = Ok ol));
    [apply runs_lift; silent|]. intros order_list _.
  apply (runs_bind_within 0 0 2 0 1 0
           (fun d => order_list <> [] -> exists report, d = Summary report));
    [apply analyze_orders_runs|]. intros html_content _.
  apply (runs_bind_within 0 1 0 0 0 0 (fun _ => True)).
  { eapply runs_weaken; [| |apply send_email_runs]; [now intros l [H _] | auto]. }
  intros [] _; apply runs_log; silent.
Qed.

Lemma on_file_error_runs (P : History -> Prop) (source_key : string) (e : exn) :
  (forall msg, P [Log ERROR msg]) ->
  runs P (fun _ => True) (on_file_error source_key e).
Proof. intros H. destruct e; apply runs_log; apply H. Qed.

Lemma process_file_guarded_runs (source_bucket : json) (source_key user_email : string) :
  runs (within 1 1 2) (fun _ => True)
       (process_file_guarded w source_bucket source_key user_email).
Proof.
  unfold process_file_guarded.
  apply (runs_try_within 1 1 2 0 0 0); [apply process_file_runs|].
  intros e. apply on_file_error_runs. intros msg. silent.
Qed.

Lemma process_record_runs (record : json) :
  runs (within 1 1 2) (fun _ => True) (process_record w record).
Proof.
  unfold process_record.
  eapply (runs_bind_within 0 0 0 1 1 2); [apply runs_lift; silent|].
  intros event_source _.
  destruct (PyJson.is_str event_source "aws:s3");
    [|apply runs_ret; [silent | exact I]].
  do 6 (eapply (runs_bind_within 0 0 0 1 1 2); [apply runs_lift; silent|];
        intros ? _).
  cbv zeta.
  eapply (runs_bind_within 0 0 0 1 1 2); [apply runs_log; silent|]. intros _ _.
  destruct (negb _); [apply runs_log; silent|].
  eapply (runs_bind_within 0 0 0 1 1 2); [apply runs_log; silent|]. intros _ _.
  apply process_file_guarded_runs.
Qed.

Lemma process_records_runs (records : list json) :
  runs (within (List.length records) (List.length records) (2 * List.length records))
       (fun _ => True) (process_records w records).
Proof.
  induction records as [|record rest IH]; simpl process_records.
  - apply runs_ret; [silent | exact I].
  - eapply runs_weaken;
      [| |apply (runs_bind_within 1 1 2 (List.length rest) (List.length rest)
                  (2 * List.length rest) (fun _ => True) (fun _ => True));
          [apply process_record_runs | intros _ _; exact IH]].
    + intros l. apply within_mono; simpl; lia.
    + auto.
Qed.

Lemma handler_body_runs (event : json) :
  runs (within (List.length (records_of event)) (List.length (records_of event))
               (2 * List.length (records_of event)))
       (fun _ => True) (handler_body w event).
Proof.
  unfold handler_body.
  eapply runs_bind_silent; [apply runs_log; silent|]. intros _ _.
  eapply runs_bind_silent; [apply runs_lift; silent|].
  intros records Hrecords. cbv beta in Hrecords.
  eapply runs_bind_silent; [apply runs_lift; silent|].
  intros items Hitems. cbv beta in Hitems.
  assert (Hof : records_of event = items)
    by (unfold records_of, rbind; now rewrite Hrecords, Hitems).
  rewrite Hof.
  eapply runs_weaken;
    [| |apply (runs_bind_within (List.length items) (List.length items)
                (2 * List.length items) 0 0 0 (fun _ => True) (fun _ => True));
        [apply process_records_runs | intros _ _; apply runs_ret; [silent | exact I]]].
  - intros l. apply within_mono; lia.
  - auto.
Qed.

End EntryPointCalls.

(** X14. Whatever the event and whatever the services answer,
    [lambda_handler] reads at most one object and hands at most one message
    to SendGrid per record of the event, and stores at most two objects per
    record; an event whose records cannot be read causes none of these
    calls. *)
Theorem handler_calls_bounded
        (L : Library) (C : Codec) (w : World) (event : json) (h : History) :
  exists l,
    snd (lambda_handler w event h) = (h ++ l)%list /\
    (count is_get l <= List.length (records_of event))%nat /\
    (count is_send l <= List.length (records_of event))%nat /\
    (count is_put l <= 2 * List.length (records_of event))%nat.
Proof.
  assert (H : runs (within (List.length (records_of event))
                           (List.length (records_of event))
                           (2 * List.length (records_of event)))
                   (fun _ => True) (lambda_handler w event)).
  { unfold lambda_handler.
    eapply runs_weaken;
      [| |apply (runs_try_within (List.length (records_of event))
                (List.length (records_of event))
                (2 * List.length (records_of event)) 0 0 0);
          [apply handler_body_runs|]].
    - intros l. apply within_mono; lia.
    - auto.
    - intros e. eapply (runs_bind_within 0 0 0 0 0 0); [apply runs_log; silent|].
      intros _ _. apply runs_ret; [silent | exact I]. }
  destruct (H h) as (l & Hl & Hw & _). exists l. split; [exact Hl | exact Hw].
Qed.

(** X15. A record of an S3 event whose decoded key does not end in
    [.json], compared without regard to case, is skipped: the record ends
    normally after two log lines, and no object is read, nothing is stored
    and no mail is sent for it. *)
Theorem non_json_record_is_skipped
        (L : Library) (C : Codec) (w : World)
        (record source_bucket : json) (quoted_key : string) (h : History) :
  envelope record = Ok (Some (source_bucket, quoted_key)) ->
  Py.endswith (Py.lower (unquote_plus quoted_key)) ".json" = false ->
  process_record w record h
  = (Ok tt,
     (h ++ [Log INFO (ProcessingFile (unquote_plus quoted_key) source_bucket);
            Log INFO (SkippingNonJson (unquote_plus quoted_key))])%list).
Proof.
  unfold envelope, process_record, bind, lift, rbind.
  destruct (PyJson.get record "eventSource" JNull) as [src|e]; [|discriminate].
  destruct (PyJson.is_str src "aws:s3"); [|discriminate].
  destruct (PyJson.index record "s3") as [s3|e]; [|discriminate].
  destruct (PyJson.index s3 "bucket") as [bucket|e]; [|discriminate].
  destruct (PyJson.index bucket "name") as [name|e]; [|discriminate].
  destruct (PyJson.index s3 "object") as [object|e]; [|discriminate].
  destruct (PyJson.index object "key") as [raw_key|e]; [|discriminate].
  destruct (PyJson.as_str raw_key) as [key|e]; [|discriminate].
  intros [= -> ->] Hskip. cbv zeta. rewrite Hskip.
  unfold log, call. simpl. now rewrite <- app_assoc.
Qed.

Lemma non_json_record_is_skipped_witness :
  @process_record DemoLibrary.library example_codec (Demo.world (fun _ => true))
                  (example_record "charts/20250701_120000_spending_chart.png") []
  = (Ok tt,
     [Log INFO (ProcessingFile "charts/20250701_120000_spending_chart.png"
                               (JStr "ubereats-orders-bucket"));
      Log INFO (SkippingNonJson "charts/20250701_120000_spending_chart.png")]).
Proof.
  apply (non_json_record_is_skipped DemoLibrary.library example_codec
           (Demo.world (fun _ => true))
           (example_record "charts/20250701_120000_spending_chart.png")
           (JStr "ubereats-orders-bucket")
           "charts/20250701_120000_spending_chart.png" []);
    reflexivity.
Defined.

Section FileMail.
Context {L : Library} {C : Codec}.
Variable w : World.

Hypothesis orders_of_json_empty :
  forall v, orders_of_json v = Ok [] -> PyJson.len v = Ok 0%nat.


End FileMail.




(** X17. [_hour_label] returns a label for every hour from 0 to 23, and
    two different hours never get the same label. *)
Theorem hour_labels_distinct (a b : Z) :
  0 <= a <= 23 -> 0 <= b <= 23 -> a <> b ->
  (exists la lb, _hour_label a = Ok la /\ _hour_label b = Ok lb) /\
  _hour_label a <> _hour_label b.
Proof.
  intros Ha Hb Hab.
  assert (Ea : a = 0 \/ a = 1 \/ a = 2 \/ a = 3 \/ a = 4 \/ a = 5 \/ a = 6 \/ a = 7 \/
               a = 8 \/ a = 9 \/ a = 10 \/ a = 11 \/ a = 12 \/ a = 13 \/ a = 14 \/
               a = 15 \/ a = 16 \/ a = 17 \/ a = 18 \/ a = 19 \/ a = 20 \/ a = 21 \/
               a = 22 \/ a = 23) by lia.
  assert (Eb : b = 0 \/ b = 1 \/ b = 2 \/ b = 3 \/ b = 4 \/ b = 5 \/ b = 6 \/ b = 7 \/
               b = 8 \/ b = 9 \/ b = 10 \/ b = 11 \/ b = 12 \/ b = 13 \/ b = 14 \/
               b = 15 \/ b = 16 \/ b = 17 \/ b = 18 \/ b = 19 \/ b = 20 \/ b = 21 \/
               b = 22 \/ b = 23) by lia.
  clear Ha Hb.
  repeat (destruct Ea as [Ea|Ea]); subst a;
    repeat (destruct Eb as [Eb|Eb]); subst b;
    try (now contradiction Hab);
    (split; [eexists _, _; split; vm_compute; reflexivity
            | vm_compute; discriminate]).
Qed.

Lemma hour_labels_distinct_witness :
  (exists la lb, _hour_label 0 = Ok la /\ _hour_label 12 = Ok lb) /\
  _hour_label 0 <> _hour_label 12.
Proof.
  apply (hour_labels_distinct 0 12); lia.
Defined.
